(** * scrappy_mvp: scoring, signal detection and alerting

    A shallow embedding of the decision logic of the trading-idea
    pipeline:

    - [src/trading_detector.py]  : [calculate_rsi], [detect_opportunities]
    - [src/alert_manager.py]     : [send_email], [process_alerts]
    - [src/asset_finder.py]      : [AssetFinder], [find_interesting_assets]
    - [src/sentiment_analyzer.py]: [aggregate_sentiment_by_asset]
    - [app.py]                   : the fallback of [main]

    Numbers.  Python floats are embedded as exact rationals [Q]: rounding
    is not modelled.  The special values the code tests for are explicit:
    a pandas cell is an [option Q] whose [None] is NaN, and the forward
    P/E is a [pyfloat], which may be infinite or NaN.  Equality of
    numbers is [Qeq] ([==]).

    Dictionaries are finite maps ([gmap]), traversed in the order of
    [map_to_list]; lists whose order matters (candidates, scored assets,
    ticker lists) are lists.

    What lies outside the repository is a parameter: the price provider
    ([yf]), the standard deviation of the returns ([annualized_std], taken
    to be a number), the polarity model ([polarity_scores], which answers
    for every text) and the company profiles ([fetch_company_profile]). *)

From Stdlib Require Import QArith Qabs Qfield Lqa String Ascii List Lia Permutation.
From stdpp Require Import gmap strings list fin_maps sorting.

Local Open Scope string_scope.

(** * The model *)

(** ** Numbers *)

Definition Qlt_bool (x y : Q) : bool := negb (Qle_bool y x).

(** ** Python values *)

(** A float that may be infinite or NaN (the forward P/E). *)
Inductive pyfloat :=
  | Finite (q : Q)
  | PosInf
  | NegInf
  | NaN.

(** [x != float("inf")] *)
Definition pyfloat_ne_inf (x : pyfloat) : bool :=
  match x with PosInf => false | _ => true end.

(** [x > 0]; false on NaN. *)
Definition pyfloat_gt0 (x : pyfloat) : bool :=
  match x with
  | Finite q => Qlt_bool 0 q
  | PosInf => true
  | NegInf | NaN => false
  end.

(** [d = {}; for k, v in m.items(): d[k] = f(k, v)] *)
Definition dict_for {A B} (f : string → A → B) (m : gmap string A)
  : gmap string B :=
  map_fold (λ k v d, <[k := f k v]> d) ∅ m.

(** [l[:n]] for a Python int [n]; a negative [n] counts from the end. *)
Definition slice_to {A} (n : Z) (l : list A) : list A :=
  if (0 <=? n)%Z then take (Z.to_nat n) l
  else take (length l - Z.to_nat (- n)) l.

(** [needle in hay] on strings. *)
Fixpoint is_substring (needle hay : string) : bool :=
  String.prefix needle hay ||
  match hay with
  | EmptyString => false
  | String _ rest => is_substring needle rest
  end.

(** [s.lower()], on ASCII letters. *)
Definition lower_ascii (c : ascii) : ascii :=
  let n := nat_of_ascii c in
  if ((65 <=? n) && (n <=? 90))%nat then ascii_of_nat (n + 32) else c.

Fixpoint lower (s : string) : string :=
  match s with
  | EmptyString => EmptyString
  | String c rest => String (lower_ascii c) (lower rest)
  end.

(** A loop whose body may raise: [None] is the exception. *)
Fixpoint for_each {A S} (body : A → S → option S) (l : list A) (s : S)
  : option S :=
  match l with
  | [] => Some s
  | x :: rest => s' ← body x s; for_each body rest s'
  end.

(** [l.sort()] is a stable sort that only asks [a < b]; [lt] is that
    comparison (already reversed for [reverse=True]).  An element goes in
    front of the first one that is not smaller than it. *)
Fixpoint sort_insert {A} (lt : A → A → bool) (x : A) (l : list A) : list A :=
  match l with
  | [] => [x]
  | y :: rest => if lt y x then y :: sort_insert lt x rest else x :: y :: rest
  end.

Definition py_sort {A} (lt : A → A → bool) (l : list A) : list A :=
  foldr (sort_insert lt) [] l.

(** [l.sort(key=key, reverse=True)]: every comparison of two keys is
    reversed. *)
Definition lt_reversed {A} (key : A → Q) (a b : A) : bool :=
  Qlt_bool (key b) (key a).

Definition sort_by_key_reverse {A} (key : A → Q) (l : list A) : list A :=
  py_sort (lt_reversed key) l.

(** ** pandas series

    A [Series] is a column of float cells; [None] is NaN. *)

Module Pandas.

Definition cell := option Q.
Definition Series := list cell.

Definition cell_sub (a b : cell) : cell :=
  match a, b with Some x, Some y => Some (x - y)%Q | _, _ => None end.
Definition cell_add (a b : cell) : cell :=
  match a, b with Some x, Some y => Some (x + y)%Q | _, _ => None end.
Definition cell_div (a b : cell) : cell :=
  match a, b with Some x, Some y => Some (x / y)%Q | _, _ => None end.
Definition cell_neg (a : cell) : cell := option_map Qopp a.

(** Comparisons with a scalar are [False] on NaN. *)
Definition cell_gt (a : cell) (k : Q) : bool :=
  match a with Some x => Qlt_bool k x | None => false end.
Definition cell_lt (a : cell) (k : Q) : bool :=
  match a with Some x => Qlt_bool x k | None => false end.

(** [s.diff()]: the first cell is NaN, cell [i] is [s[i] - s[i-1]]. *)
Fixpoint diff_from (prev : cell) (s : Series) : Series :=
  match s with
  | [] => []
  | x :: t => cell_sub x prev :: diff_from x t
  end.
Definition diff (s : Series) : Series := diff_from None s.

(** [s.where(cond, other)]: keep the cell where [cond] holds, put [other]
    elsewhere. *)
Definition where_ (cond : cell → bool) (other : Q) (s : Series) : Series :=
  map (λ x, if cond x then x else Some other) s.

Definition neg (s : Series) : Series := map cell_neg s.

(** [s.replace(v, nan)]. *)
Definition replace_nan (v : Q) (s : Series) : Series :=
  map (λ x, match x with
            | Some q => if Qeq_bool q v then None else Some q
            | None => None
            end) s.

Definition div (a b : Series) : Series := zip_with cell_div a b.

(** The window that [rolling(window)] sees at position [i]: the cells
    [i+1-window .. i], fewer at the start of the series. *)
Definition window_at (window i : nat) (s : Series) : Series :=
  take (S i - (S i - window)) (drop (S i - window) s).

Definition valid (w : Series) : list Q := omap id w.

Definition Qsum (l : list Q) : Q := foldr Qplus 0%Q l.

(** Mean of the non-NaN cells of a window, NaN when there are fewer than
    [min_periods] of them. *)
Definition window_mean (min_periods : nat) (w : Series) : cell :=
  let vs := valid w in
  if (length vs <? min_periods)%nat then None
  else Some (Qsum vs / inject_Z (Z.of_nat (length vs)))%Q.

(** [s.rolling(window, min_periods).mean()]. *)
Definition rolling_mean (window min_periods : nat) (s : Series) : Series :=
  map (λ i, window_mean min_periods (window_at window i s))
      (seq 0 (length s)).

(** [s.iloc[-1]]; the series is not empty where the code uses it. *)
Definition iloc_last (s : Series) : cell := default None (last s).

(** A cell holding a number equal to zero. *)
Definition zero_cell (c : cell) : Prop := ∃ q, c = Some q ∧ (q == 0)%Q.

(** A cell that is NaN or not negative. *)
Definition nonneg_cell (c : cell) : Prop :=
  match c with Some q => (0 <= q)%Q | None => True end.

(** A cell holding a number that is not negative. *)
Definition nonneg_number (c : cell) : Prop := ∃ q, c = Some q ∧ (0 <= q)%Q.

(** A cell that is NaN or a number of the interval [lo, hi]. *)
Definition cell_within (lo hi : Q) (c : cell) : Prop :=
  match c with Some q => (lo <= q <= hi)%Q | None => True end.

(** A cell that is NaN or a number other than zero. *)
Definition nonzero_cell (c : cell) : Prop :=
  match c with Some q => ¬ (q == 0)%Q | None => True end.

End Pandas.

(** ** trading_detector.py *)

(** [calculate_rsi(series, period)], with its intermediate columns. *)
Definition rsi_gain (series : Pandas.Series) : Pandas.Series :=
  Pandas.where_ (λ d, Pandas.cell_gt d 0) 0 (Pandas.diff series).

Definition rsi_loss (series : Pandas.Series) : Pandas.Series :=
  Pandas.neg (Pandas.where_ (λ d, Pandas.cell_lt d 0) 0 (Pandas.diff series)).

Definition rsi_avg_gain (series : Pandas.Series) (period : nat) : Pandas.Series :=
  Pandas.rolling_mean period 1 (rsi_gain series).

Definition rsi_avg_loss (series : Pandas.Series) (period : nat) : Pandas.Series :=
  Pandas.rolling_mean period 1 (rsi_loss series).

Definition rsi_rs (series : Pandas.Series) (period : nat) : Pandas.Series :=
  Pandas.div (rsi_avg_gain series period)
             (Pandas.replace_nan 0 (rsi_avg_loss series period)).

Definition calculate_rsi (series : Pandas.Series) (period : nat) : Pandas.Series :=
  map (λ rs, Pandas.cell_sub (Some 100%Q)
               (Pandas.cell_div (Some 100%Q) (Pandas.cell_add (Some 1%Q) rs)))
      (rsi_rs series period).

(** One entry of [market_data]; the key ["daily_history"] may be missing. *)
Record market_record := {
  price : Q;
  volume : Z;
  timestamp : string;
  intraday_history : list Q;
  daily_history : option (list Q)
}.

(** The body of the loop of [detect_opportunities]: the label of one
    asset. *)
Definition signal_of (data : market_record) : string :=
  match daily_history data with
  | Some closes =>
      if (14 <=? length closes)%nat then
        let rsi_series := calculate_rsi (map Some closes) 14 in
        match Pandas.iloc_last rsi_series with
        | Some rsi =>
            if Qlt_bool 70 rsi then "Momentum (Overbought)"
            else if Qlt_bool rsi 30 then "Momentum (Oversold)"
            else "No signal"
        | None => "No signal (insufficient data)"
        end
      else "No signal (insufficient history)"
  | None => "No signal (insufficient history)"
  end.

(** [TradingSignalDetector.detect_opportunities]: one assignment
    [opportunities[asset] = ...] per item of [market_data]. *)
Definition detect_opportunities (market_data : gmap string market_record)
  : gmap string string :=
  dict_for (λ _ data, signal_of data) market_data.

(** ** sentiment_analyzer.py *)

(** One entry of [news_data], keyed by its headline. *)
Record news_item := {
  description : string;
  source : string;
  published_at : string
}.

(** The scores of the polarity model. *)
Record polarity := {
  neg : Q;
  neu : Q;
  pos : Q;
  compound : Q
}.

(** An [AssetSentiment]. *)
Record sentiment := {
  avg_compound : Q;
  count : Z
}.

Definition no_sentiment : sentiment := {| avg_compound := 0; count := 0 |}.

(** [SentimentAnalyzer.analyze_sentiment].  [polarity_scores] stands for
    [self.analyzer.polarity_scores(self.preprocess_text(text))], the
    external lexicon model applied to the cleaned text. *)
Definition analyze_sentiment (polarity_scores : string → polarity)
    (news_data : gmap string news_item) : gmap string polarity :=
  dict_for (λ title info,
              polarity_scores (title ++ " " ++ description info)) news_data.

(** The test of the inner loop; [news_data[title]] raises on a missing
    key, and [or] does not evaluate it when the title already matches. *)
Definition headline_matches (news_data : gmap string news_item)
    (asset title : string) : option bool :=
  if is_substring (lower asset) (lower title) then Some true
  else info ← news_data !! title;
       Some (is_substring (lower asset) (lower (description info))).

(** [asset_sentiments[asset].append(scores["compound"])]; the key is there
    from the start, a missing one would raise. *)
Definition append_compound (asset : string) (c : Q)
    (asset_sentiments : gmap string (list Q)) : option (gmap string (list Q)) :=
  compounds ← asset_sentiments !! asset;
  Some (<[asset := (compounds ++ [c])%list]> asset_sentiments).

Definition relate_headline (news_data : gmap string news_item)
    (assets : list string) (item : string * polarity)
    (asset_sentiments : gmap string (list Q)) : option (gmap string (list Q)) :=
  for_each (λ asset acc,
              m ← headline_matches news_data asset item.1;
              if m : bool then append_compound asset (compound item.2) acc
              else Some acc)
           assets asset_sentiments.

Definition aggregate (compounds : list Q) : sentiment :=
  match compounds with
  | [] => no_sentiment
  | _ => {| avg_compound := Pandas.Qsum compounds
                            / inject_Z (Z.of_nat (length compounds));
            count := Z.of_nat (length compounds) |}
  end.

(** [SentimentAnalyzer.aggregate_sentiment_by_asset]; the [except] branch
    answers a neutral record for every asset. *)
Definition aggregate_sentiment_by_asset (polarity_scores : string → polarity)
    (news_data : gmap string news_item) (assets : list string)
  : gmap string sentiment :=
  let sentiment_scores := analyze_sentiment polarity_scores news_data in
  let asset_sentiments : gmap string (list Q) :=
    list_to_map ((λ asset, (asset, [])) <$> assets) in
  match for_each (relate_headline news_data assets)
                 (map_to_list sentiment_scores) asset_sentiments with
  | Some asset_sentiments =>
      dict_for (λ _ compounds, aggregate compounds) asset_sentiments
  | None => list_to_map ((λ asset, (asset, no_sentiment)) <$> assets)
  end.

(** ** alert_manager.py *)

Record company_profile := {
  profile_description : string;
  sector : string;
  sp500 : string
}.

Record AlertManager := {
  sender : string;
  password : string;
  recipients : list string
}.

(** The arguments handed to the HTML template. *)
Record alert_body := {
  action : string;
  action_color : string;
  asset : string;
  signal : string;
  sentiment_color : string;
  body_avg_compound : Q;
  sentiment_label : string;
  body_news_count : Z;
  body_description : string;
  body_sector : string;
  body_sp500 : string
}.

Record email := {
  subject : string;
  body : alert_body
}.

Record smtp_message := {
  msg_from : string;
  msg_to : list string;
  msg : email
}.

(** [AlertManager.send_email]: what is handed to the SMTP server, nothing
    when the sender, the password or the recipients are missing. *)
Definition send_email (self : AlertManager) (e : email) : option smtp_message :=
  if bool_decide (sender self = EmptyString)
     || bool_decide (password self = EmptyString)
  then None
  else if bool_decide (recipients self = []) then None
  else Some {| msg_from := sender self; msg_to := recipients self; msg := e |}.

(** [asset_sentiments.get(asset, {"avg_compound": 0.0, "count": 0})] *)
Definition sentiment_info (asset_sentiments : gmap string sentiment)
    (asset : string) : sentiment :=
  default no_sentiment (asset_sentiments !! asset).

(** The alert thresholds. *)
Definition should_alert (signal : string) (avg_compound : Q) : bool :=
  (is_substring "Oversold" signal && Qlt_bool 0.5 avg_compound) ||
  (is_substring "Overbought" signal && Qlt_bool avg_compound (-0.5)).

(** The body of the loop of [process_alerts]: the email composed for one
    asset, if any. *)
Definition alert_for (fetch_company_profile : string → company_profile)
    (asset_sentiments : gmap string sentiment) (asset signal : string)
  : option email :=
  let info := sentiment_info asset_sentiments asset in
  let avg_compound := avg_compound info in
  let news_count := count info in
  if negb (should_alert signal avg_compound) then None
  else
    let profile := fetch_company_profile asset in
    let sentiment_label :=
      if Qlt_bool 0 avg_compound then "Positive"
      else if Qlt_bool avg_compound 0 then "Negative" else "Neutral" in
    let sentiment_color :=
      if Qlt_bool 0 avg_compound then "green"
      else if Qlt_bool avg_compound 0 then "red" else "gray" in
    let action_color := if is_substring "Oversold" signal then "green" else "red" in
    let action := if is_substring "Oversold" signal then "Buy" else "Sell" in
    Some {| subject := "Trading Alert: " ++ action ++ " Opportunity for " ++ asset;
            body := {| action := action;
                       action_color := action_color;
                       asset := asset;
                       signal := signal;
                       sentiment_color := sentiment_color;
                       body_avg_compound := avg_compound;
                       sentiment_label := sentiment_label;
                       body_news_count := news_count;
                       body_description := profile_description profile;
                       body_sector := sector profile;
                       body_sp500 := sp500 profile |} |}.

(** [AlertManager.process_alerts]: the calls of [send_email], one per
    qualifying item of [opportunities]. *)
Definition process_alerts (fetch_company_profile : string → company_profile)
    (opportunities : gmap string string)
    (asset_sentiments : gmap string sentiment) : list email :=
  omap (λ item, alert_for fetch_company_profile asset_sentiments item.1 item.2)
       (map_to_list opportunities).

(** What reaches the SMTP server during [process_alerts]. *)
Definition process_alerts_sent (self : AlertManager)
    (fetch_company_profile : string → company_profile)
    (opportunities : gmap string string)
    (asset_sentiments : gmap string sentiment) : list smtp_message :=
  omap (send_email self)
       (process_alerts fetch_company_profile opportunities asset_sentiments).

(** [send_email] was called with an alert for asset [a]. *)
Definition alerted (fetch_company_profile : string → company_profile)
    (opportunities : gmap string string)
    (asset_sentiments : gmap string sentiment) (a : string) : Prop :=
  ∃ e, e ∈ process_alerts fetch_company_profile opportunities asset_sentiments ∧
       asset (body e) = a.

(** An alert for asset [a] was handed to the SMTP server. *)
Definition delivered (fetch_company_profile : string → company_profile)
    (self : AlertManager) (opportunities : gmap string string)
    (asset_sentiments : gmap string sentiment) (a : string) : Prop :=
  ∃ m, m ∈ process_alerts_sent self fetch_company_profile
             opportunities asset_sentiments ∧
       asset (body (msg m)) = a.

(** ** asset_finder.py *)

Definition FALLBACK_LOSERS : list string :=
  ["DZSI"; "BBWI"; "ETSY"; "SENS"; "NGVC"; "INOD"; "NGS"; "OB"; "TBBK"; "HESM"].

Record AssetFinder := {
  target_assets : Z;
  max_candidates : Z;
  stock_candidates : list string
}.

(** [AssetFinder.fetch_biggest_losers]; [losers] is the list of symbols in
    the answer of the provider, [None] when the request fails. *)
Definition fetch_biggest_losers (losers : option (list string))
    (max_candidates : Z) : list string :=
  match losers with
  | Some data =>
      let tickers := slice_to max_candidates data in
      match tickers with
      | [] => FALLBACK_LOSERS
      | _ => tickers
      end
  | None => FALLBACK_LOSERS
  end.

(** [AssetFinder.__init__]; [None] is the [ValueError] raised without an
    API key. *)
Definition AssetFinder_init (fmp_api_key : option string)
    (losers : option (list string)) (target_assets max_candidates : Z)
  : option AssetFinder :=
  match fmp_api_key with
  | None => None
  | Some key =>
      if bool_decide (key = EmptyString) then None
      else Some {| target_assets := Z.max 5 (Z.min target_assets 10);
                   max_candidates := max_candidates;
                   stock_candidates := fetch_biggest_losers losers max_candidates |}
  end.

(** What the price provider answers for a ticker. *)
Record yf_ticker := {
  history : list Q;
  info_marketCap : option Q;
  info_forwardPE : option pyfloat
}.

(** The record built by [fetch_asset_data]. *)
Record asset_data := {
  ticker : string;
  market_cap : Q;
  volatility : Q;
  pe_ratio : pyfloat
}.

(** ... and completed by [find_interesting_assets]. *)
Record scored_asset := {
  data : asset_data;
  score : Q;
  scored_sentiment : Q;
  news_count : Z
}.

(** [AssetFinder.calculate_volatility]; [annualized_std] stands for
    [history["Close"].pct_change().dropna().std() * np.sqrt(252)]. *)
Definition calculate_volatility (annualized_std : list Q → Q)
    (history : list Q) : Q :=
  if (length history <? 2)%nat then 0 else annualized_std history.

(** [AssetFinder.fetch_asset_data]; [yf ticker = None] is a failed
    request. *)
Definition fetch_asset_data (yf : string → option yf_ticker)
    (annualized_std : list Q → Q) (ticker : string) : option asset_data :=
  match yf ticker with
  | None => None
  | Some asset =>
      match history asset with
      | [] => None
      | _ =>
          let market_cap := default 0%Q (info_marketCap asset) in
          let pe_ratio := default PosInf (info_forwardPE asset) in
          if Qeq_bool market_cap 0 then None
          else Some {| ticker := ticker;
                       market_cap := market_cap;
                       volatility := calculate_volatility annualized_std (history asset);
                       pe_ratio := pe_ratio |}
      end
  end.

Definition sentiment_weight (info : sentiment) : Q :=
  if (0 <? count info)%Z then Qabs (avg_compound info) else 0.1.

(** [1 / pe if pe != float("inf") and pe > 0 else 0.0]: only a finite
    positive [pe] passes both tests. *)
Definition pe_score (pe : pyfloat) : Q :=
  if pyfloat_ne_inf pe && pyfloat_gt0 pe then
    match pe with Finite q => 1 / q | _ => 0 end
  else 0.

Definition composite_score (sentiment_weight volatility pe_score : Q) : Q :=
  sentiment_weight * 0.4 + volatility * 0.3 + pe_score * 0.3.

(** The body of the loop of [find_interesting_assets] for a ticker with
    data. *)
Definition score_asset (asset_sentiments : gmap string sentiment)
    (d : asset_data) : scored_asset :=
  let info := sentiment_info asset_sentiments (ticker d) in
  let sentiment_score := Qabs (avg_compound info) in
  {| data := d;
     score := composite_score (sentiment_weight info) (volatility d)
                              (pe_score (pe_ratio d));
     scored_sentiment := sentiment_score;
     news_count := count info |}.

(** The list [asset_data] before it is sorted. *)
Definition scored_candidates (fetch : string → option asset_data)
    (self : AssetFinder) (asset_sentiments : gmap string sentiment)
  : list scored_asset :=
  omap (λ t, score_asset asset_sentiments <$> fetch t) (stock_candidates self).

(** ... and after. *)
Definition ranked_candidates (fetch : string → option asset_data)
    (self : AssetFinder) (asset_sentiments : gmap string sentiment)
  : list scored_asset :=
  sort_by_key_reverse score (scored_candidates fetch self asset_sentiments).

(** [AssetFinder.find_interesting_assets] *)
Definition find_interesting_assets (fetch : string → option asset_data)
    (self : AssetFinder) (asset_sentiments : gmap string sentiment)
  : list string :=
  map (λ d, ticker (data d))
      (slice_to (target_assets self)
                (ranked_candidates fetch self asset_sentiments)).

(** The composite score in the words of the specification, to compare
    with [composite_score] above. *)
Module Spec.

Definition sentiment_weight (avg_compound : Q) (count : Z) : Q :=
  if (0 <? count)%Z then Qabs avg_compound else 0.1.

Definition pe_score (pe : pyfloat) : Q :=
  match pe with
  | Finite q => if Qlt_bool 0 q then 1 / q else 0
  | PosInf | NegInf | NaN => 0
  end.

Definition composite (volatility : Q) (pe : pyfloat)
    (avg_compound : Q) (count : Z) : Q :=
  0.4 * sentiment_weight avg_compound count + 0.3 * volatility
  + 0.3 * pe_score pe.

End Spec.

(** ** app.py *)

(** Step 4 of [main]: the assets the rest of the pipeline works on. *)
Definition main_assets (ranked : list string) : list string :=
  match ranked with
  | [] => take 5 ["DZSI"; "BBWI"; "ETSY"; "SENS"; "NGVC";
                  "INOD"; "NGS"; "OB"; "TBBK"; "HESM"]
  | _ => ranked
  end.

Definition main_step4 (fetch : string → option asset_data)
    (asset_finder : AssetFinder) (asset_sentiments : gmap string sentiment)
  : list string :=
  main_assets (find_interesting_assets fetch asset_finder asset_sentiments).

(** ** Notions used in the statements *)

(** [h] contains [n]. *)
Definition contains (h n : string) : Prop := ∃ pre post, h = pre ++ n ++ post.

(** The test of [headline_matches] when the headline is a key of
    [news_data]. *)
Definition matches_b (news_data : gmap string news_item)
    (asset title : string) : bool :=
  is_substring (lower asset) (lower title) ||
  from_option (λ info, is_substring (lower asset) (lower (description info)))
              false (news_data !! title).

(** The scored headlines that count toward [asset], each once. *)
Definition matched_headlines (polarity_scores : string → polarity)
    (news_data : gmap string news_item) (asset : string)
  : list (string * polarity) :=
  List.filter (λ item, matches_b news_data asset item.1)
              (map_to_list (analyze_sentiment polarity_scores news_data)).

(** What one headline appends to the list of [a]: its compound score, once
    per occurrence of [a] in the list of assets. *)
Definition appended (news_data : gmap string news_item)
    (assets : list string) (a : string) (item : string * polarity) : list Q :=
  if matches_b news_data a item.1
  then replicate (count_occ string_dec assets a) (compound item.2)
  else [].

(** Sequences of prices: rising weakly, rising strictly, constant. *)
Fixpoint nondecreasing_from (p : Q) (l : list Q) : Prop :=
  match l with
  | [] => True
  | x :: t => (p <= x)%Q ∧ nondecreasing_from x t
  end.

Definition nondecreasing (l : list Q) : Prop :=
  match l with [] => True | x :: t => nondecreasing_from x t end.

Fixpoint increasing_from (p : Q) (l : list Q) : Prop :=
  match l with
  | [] => True
  | x :: t => (p < x)%Q ∧ increasing_from x t
  end.

Definition increasing (l : list Q) : Prop :=
  match l with [] => True | x :: t => increasing_from x t end.

Definition constant (l : list Q) : Prop := ∃ c, Forall (λ x, (x == c)%Q) l.



(** ** Concrete inputs *)

Definition with_history (closes : list Q) : market_record :=
  {| price := 0; volume := 0; timestamp := "2026-01-05T16:00:00"; intraday_history := [];
     daily_history := Some closes |}.

Definition rising_closes : list Q :=
  [1; 2; 3; 4; 5; 6; 7; 8; 9; 10; 11; 12; 13; 14; 15; 16; 17; 18; 19; 20]%Q.

Definition flat_closes : list Q := replicate 14 5%Q.

Definition short_closes : list Q :=
  [9; 8; 7; 6; 5; 4; 3; 2; 1; 2; 3; 4; 5]%Q.

Definition dipping_closes : list Q :=
  [1; 2; 3; 4; 5; 6; 7; 8; 9; 10; 11; 12; 13; 14; 15; 16; 17; 18; 17; 19]%Q.

Definition zigzag_closes : list Q :=
  [10; 11; 10; 11; 10; 11; 10; 11; 10; 11; 10; 11; 10; 11; 13]%Q.

Definition falling_closes : list Q :=
  [20; 19; 18; 17; 16; 15; 14; 13; 12; 11; 10; 9; 8; 7; 8]%Q.

Definition rising_market : gmap string market_record :=
  {["UP" := with_history rising_closes]}.

Definition flat_market : gmap string market_record :=
  {["FLAT" := with_history flat_closes]}.

Definition short_market : gmap string market_record :=
  {["NEW" := with_history short_closes]}.

Definition demo_profile (ticker : string) : company_profile :=
  {| profile_description := "No data available for " ++ ticker;
     sector := "Unknown"; sp500 := "Unknown" |}.

Definition demo_manager : AlertManager :=
  {| sender := "bot@example.com"; password := "app-password";
     recipients := ["desk@example.com"] |}.

Definition demo_opportunities : gmap string string :=
  <["AAA" := "Momentum (Oversold)"]>
    (<["BBB" := "Momentum (Overbought)"]>
       (<["CCC" := "Momentum (Oversold)"]> ∅)).

Definition demo_sentiments : gmap string sentiment :=
  <["AAA" := {| avg_compound := 0.6; count := 3 |}]>
    (<["BBB" := {| avg_compound := 0.6; count := 2 |}]> ∅).

Definition demo_yf (ticker : string) : option yf_ticker :=
  if bool_decide (ticker = "AAA") then
    Some {| history := [10; 11; 12]%Q; info_marketCap := Some 1000000%Q;
            info_forwardPE := Some (Finite 20) |}
  else if bool_decide (ticker = "BBB") then
    Some {| history := [5; 5]%Q; info_marketCap := Some 500%Q;
            info_forwardPE := None |}
  else if bool_decide (ticker = "CCC") then
    Some {| history := []; info_marketCap := Some 700%Q;
            info_forwardPE := Some (Finite 8) |}
  else if bool_decide (ticker = "EEE") then
    Some {| history := [3; 4]%Q; info_marketCap := Some 900%Q;
            info_forwardPE := Some (Finite 20) |}
  else if bool_decide (ticker = "FFF") then
    Some {| history := [7; 6; 7]%Q; info_marketCap := Some 300%Q;
            info_forwardPE := Some (Finite 20) |}
  else None.

Definition demo_std (history : list Q) : Q := 0.5.

Definition demo_finder : AssetFinder :=
  {| target_assets := 5; max_candidates := 10;
     stock_candidates := ["FFF"; "BBB"; "CCC"; "EEE"; "DDD"; "AAA"] |}.

Definition no_data (ticker : string) : option asset_data := None.

Definition abc_news : gmap string news_item :=
  {["ABC rallies" := {| description := "Shares climb after earnings";
                        source := "Yahoo Finance"; published_at := "2026-01-05" |}]}.

Definition strong_polarity (text : string) : polarity :=
  {| neg := 0; neu := 0.2; pos := 0.8; compound := 0.8 |}.
(** ** trading_detector.py: further notions *)

(** One cell of [s.replace(v, nan)]. *)
Definition nan_if (v : Q) (x : Pandas.cell) : Pandas.cell :=
  match x with
  | Some q => if Qeq_bool q v then None else Some q
  | None => None
  end.

(** The RSI of one row, from its two rolling averages. *)
Definition rsi_of (avg_gain avg_loss : Pandas.cell) : Pandas.cell :=
  Pandas.cell_sub (Some 100%Q)
    (Pandas.cell_div (Some 100%Q)
       (Pandas.cell_add (Some 1%Q)
          (Pandas.cell_div avg_gain (nan_if 0 avg_loss)))).

(** The five labels of [detect_opportunities]. *)
Definition signal_labels : list string :=
  ["Momentum (Overbought)"; "Momentum (Oversold)"; "No signal";
   "No signal (insufficient data)"; "No signal (insufficient history)"].

(** Prices that never rise. *)
Fixpoint nonincreasing_from (p : Q) (l : list Q) : Prop :=
  match l with
  | [] => True
  | x :: t => (x <= p)%Q ∧ nonincreasing_from x t
  end.

Definition nonincreasing (l : list Q) : Prop :=
  match l with [] => True | x :: t => nonincreasing_from x t end.

(** Two cells that are both NaN or hold equal numbers. *)
Definition cell_equiv (c1 c2 : Pandas.cell) : Prop :=
  match c1, c2 with
  | Some a, Some b => (a == b)%Q
  | None, None => True
  | _, _ => False
  end.

(** [c2] is [c1] multiplied by [k]; NaN stays NaN. *)
Definition scaled (k : Q) (c1 c2 : Pandas.cell) : Prop :=
  match c1, c2 with
  | Some a, Some b => (b == k * a)%Q
  | None, None => True
  | _, _ => False
  end.

Definition falling_market : gmap string market_record :=
  {["DOWN" := with_history falling_closes]}.

(** The last RSI value of an asset with at least 14 daily closes. *)
Definition last_rsi (d : market_record) (r : Pandas.cell) : Prop :=
  ∃ closes, daily_history d = Some closes ∧ (14 <= length closes)%nat ∧
            Pandas.iloc_last (calculate_rsi (map Some closes) 14) = r.

(** No usable history: the key is missing or there are fewer than 14
    closes. *)
Definition short_history (d : market_record) : Prop :=
  daily_history d = None ∨
  ∃ closes, daily_history d = Some closes ∧ (length closes < 14)%nat.

Definition sliding_closes : list Q :=
  [20; 19; 18; 17; 16; 15; 14; 13; 12; 11; 10; 9; 8; 7; 6]%Q.

Definition sliding_market : gmap string market_record :=
  {["SLIDE" := with_history sliding_closes]}.


(** ** sentiment_analyzer.py: [classify_sentiment] *)

Definition classify_sentiment (compound_score : Q) : string :=
  if Qlt_bool 0.05 compound_score then "positive"
  else if Qlt_bool compound_score (-0.05) then "negative"
  else "neutral".

(** ** dashboard.py: what [run_dashboard] decides for one asset *)

(** The signal line: its colour and the text in the brackets. *)
Definition signal_card (opportunities : gmap string string)
    (asset : string) : string * string :=
  let signal := default "No signal" (opportunities !! asset) in
  if is_substring "Overbought" signal then ("red", "Sell - " ++ signal)
  else if is_substring "Oversold" signal then ("green", "Buy - " ++ signal)
  else ("gray", signal).

(** The mood line: its colour and the label (before [capitalize]). *)
Definition mood_card (asset_sentiments : gmap string sentiment)
    (asset : string) : string * string :=
  let sentiment_info := sentiment_info asset_sentiments asset in
  let sentiment_label := classify_sentiment (avg_compound sentiment_info) in
  let color :=
    if bool_decide (sentiment_label = "positive") then ":green"
    else if bool_decide (sentiment_label = "negative") then ":red"
    else ":gray" in
  (color, sentiment_label).

(** The entries under "Latest News": colour, headline and score of the
    headlines that mention the asset, nothing when the count is 0. *)
Definition news_lines (news_data : gmap string news_item)
    (sentiment_scores : gmap string polarity)
    (asset_sentiments : gmap string sentiment) (asset : string)
  : list (string * string * Q) :=
  let news_count := count (sentiment_info asset_sentiments asset) in
  if (0 <? news_count)%Z then
    omap (λ item,
            let title := item.1 in
            let info := item.2 in
            if is_substring (lower asset) (lower title)
               || is_substring (lower asset) (lower (description info))
            then
              let score :=
                from_option compound 0%Q (sentiment_scores !! title) in
              let sentiment_color :=
                if Qlt_bool 0.05 score then ":green"
                else if Qlt_bool score (-0.05) then ":red"
                else ":gray" in
              Some (sentiment_color, title, score)
            else None)
         (map_to_list news_data)
  else [].

(** [min(l)] and [max(l)] of a list that is not empty. *)
Definition Qmin_list (x : Q) (l : list Q) : Q :=
  foldl (λ m y, if Qlt_bool y m then y else m) x l.
Definition Qmax_list (x : Q) (l : list Q) : Q :=
  foldl (λ m y, if Qlt_bool m y then y else m) x l.

(** The range of the price axis, when there is a chart. *)
Definition chart_range (daily_history : list Q) : option (Q * Q) :=
  match daily_history with
  | [] => None
  | x :: rest =>
      let min_price := (Qmin_list x rest * 0.95)%Q in
      let max_price := (Qmax_list x rest * 1.05)%Q in
      Some (min_price, max_price)
  end.

Definition oversold_market : gmap string market_record :=
  {["AAA" := with_history falling_closes]}.




Definition two_news : gmap string news_item :=
  <["OBX climbs" := {| description := "Strong quarter"; source := "Yahoo Finance";
                       published_at := "2026-01-05" |}]>
    (<["Markets calm" := {| description := "Little movement for ob today";
                            source := "Yahoo Finance";
                            published_at := "2026-01-06" |}]> ∅).

(** The line the dashboard shows for a scored headline: colour, headline,
    compound score. *)
Definition shown_line (item : string * polarity) : string * string * Q :=
  let score := compound item.2 in
  (if Qlt_bool 0.05 score then ":green"
   else if Qlt_bool score (-0.05) then ":red"
   else ":gray",
   item.1, score).

(** Every price of the list lies in the range. *)
Definition covers (range : Q * Q) (prices : list Q) : Prop :=
  Forall (λ p, (range.1 <= p <= range.2)%Q) prices.

(** ** data_ingestion.py *)

(** A loop inside a [try] whose handler only logs: when the body raises,
    the loop stops and the state reached so far stays. *)
Inductive outcome (S : Type) : Type :=
  | Done (s : S)
  | Raised (s : S).
Arguments Done {S} s.
Arguments Raised {S} s.

Definition state_of {S} (o : outcome S) : S :=
  match o with Done s => s | Raised s => s end.

Fixpoint try_each {A S} (body : A → S → outcome S) (l : list A) (s : S)
  : outcome S :=
  match l with
  | [] => Done s
  | x :: rest =>
      match body x s with
      | Done s' => try_each body rest s'
      | Raised s' => Raised s'
      end
  end.

(** [s.replace(old, new)] for a pattern [old] that is not empty: the
    occurrences are replaced from the left, without overlap.  [skip]
    counts the characters of an occurrence still to be dropped. *)
Fixpoint replace_from (old new : string) (skip : nat) (s : string) : string :=
  match s with
  | EmptyString => EmptyString
  | String c rest =>
      match skip with
      | S k => replace_from old new k rest
      | O =>
          if String.prefix old s
          then new ++ replace_from old new (String.length old - 1) rest
          else String c (replace_from old new 0 rest)
      end
  end.

Definition str_replace (old new s : string) : string :=
  replace_from old new 0 s.

Module DataIngestion.

(** One row of a frame of [ticker.history]; a NaN volume is [None]. *)
Record bar := {
  Close : Q;
  Volume : option Z
}.

(** One entry of a parsed feed; an attribute that is missing is [None]. *)
Record entry := {
  title : option string;
  summary : option string;
  published : option string
}.

(** The fields of a [DataIngestion] object that the fetches use. *)
Record t := {
  assets : list string;
  market_data : gmap string market_record;
  news_data : gmap string news_item;
  last_market_fetch : gmap string string
}.

(** [DataIngestion.__init__]. *)
Definition init (assets : list string) : t :=
  {| assets := assets; market_data := ∅; news_data := ∅;
     last_market_fetch := ∅ |}.

(** The entry [fetch_market_data] writes from the two frames. *)
Definition written_from (intraday daily : list bar) (d : market_record)
  : Prop :=
  daily ≠ [] ∧
  daily_history d = Some (Close <$> daily) ∧
  intraday_history d = Close <$> intraday ∧
  ∃ latest, last intraday = Some latest ∧ price d = Close latest ∧
            Volume latest = Some (volume d).

Section World.
(** The outside world.  A state of the fetches pairs the object with a
    counter of the steps taken in the world, so that two requests or two
    readings of the clock need not agree.  [ticker_history] is
    [yf.Ticker(asset).history(period, interval)], [parse] is
    [feedparser.parse(url).entries], [now] is
    [datetime.now().isoformat()]; [None] is a raised exception. *)
Context (ticker_history : nat → string → string → string
                         → option (list bar)).
Context (parse : nat → string → option (list entry)).
Context (now : nat → string).

(** The body of the loop of [fetch_market_data]. *)
Definition fetch_asset (asset : string) (st : t * nat) : outcome (t * nat) :=
  let self := st.1 in
  let tick := st.2 in
  match ticker_history tick asset "1d" "5m" with
  | None => Raised (self, S tick)
  | Some intraday =>
      match ticker_history tick asset "14d" "1d" with
      | None => Raised (self, S tick)
      | Some daily =>
          match last intraday, daily with
          | Some latest_intraday, _ :: _ =>
              match Volume latest_intraday with
              | None => Raised (self, S tick)
              | Some volume =>
                  Done ({| assets := assets self;
                           market_data :=
                             <[asset :=
                                 {| price := Close latest_intraday;
                                    volume := volume;
                                    timestamp := now tick;
                                    intraday_history := Close <$> intraday;
                                    daily_history := Some (Close <$> daily) |}]>
                               (market_data self);
                           news_data := news_data self;
                           last_market_fetch :=
                             <[asset := now tick]> (last_market_fetch self) |},
                        S tick)
              end
          | _, _ => Done (self, S tick)
          end
      end
  end.

(** [DataIngestion.fetch_market_data]. *)
Definition fetch_market_data (st : t * nat) : t * nat :=
  state_of (try_each fetch_asset (assets st.1) st).

(** The body of the inner loop of [fetch_news_data]. *)
Definition store_entry (e : entry) (st : t * nat) : outcome (t * nat) :=
  let self := st.1 in
  let tick := st.2 in
  match title e with
  | None => Raised st
  | Some title =>
      match summary e with
      | None => Raised st
      | Some summary =>
          let published_at := default (now tick) (published e) in
          Done ({| assets := assets self;
                   market_data := market_data self;
                   news_data :=
                     <[title := {| description := summary;
                                   source := "Yahoo Finance";
                                   published_at := published_at |}]>
                       (news_data self);
                   last_market_fetch := last_market_fetch self |},
                S tick)
      end
  end.

Definition feed_url (asset : string) : string :=
  let url_asset := str_replace "-USD" EmptyString asset in
  "https://finance.yahoo.com/rss/headline?s=" ++ url_asset.

(** The body of the outer loop of [fetch_news_data]. *)
Definition fetch_feed (asset : string) (st : t * nat) : outcome (t * nat) :=
  match parse st.2 (feed_url asset) with
  | None => Raised (st.1, S st.2)
  | Some feed =>
      let entries := take 5 feed in
      try_each store_entry entries (st.1, S st.2)
  end.

(** [DataIngestion.fetch_news_data]. *)
Definition fetch_news_data (st : t * nat) : t * nat :=
  let self := st.1 in
  let cleared :=
    {| assets := assets self; market_data := market_data self;
       news_data := ∅; last_market_fetch := last_market_fetch self |} in
  state_of (try_each fetch_feed (assets self) (cleared, st.2)).

(** An entry of the market data was written from the answers to the
    requests made for [a] at some step from [tick0] on. *)
Definition refreshed (tick0 : nat) (a : string) (d : market_record) : Prop :=
  ∃ tick intraday daily,
    (tick0 <= tick)%nat ∧
    ticker_history tick a "1d" "5m" = Some intraday ∧
    ticker_history tick a "14d" "1d" = Some daily ∧
    written_from intraday daily d ∧ timestamp d = now tick.

(** What a run of the loop of [fetch_market_data] over [l] keeps. *)
Definition market_kept (l : list string) (st st' : t * nat) : Prop :=
  assets st'.1 = assets st.1 ∧
  news_data st'.1 = news_data st.1 ∧
  (st.2 <= st'.2)%nat ∧
  (∀ a, is_Some (market_data st.1 !! a) → is_Some (market_data st'.1 !! a)) ∧
  (∀ a d, market_data st'.1 !! a = Some d →
          market_data st.1 !! a = Some d ∨ (a ∈ l ∧ refreshed st.2 a d)).

(** A request that answers two frames with rows, the last intraday row
    with a volume. *)
Definition answers (tick : nat) (a : string) : Prop :=
  ∃ intraday daily latest v,
    ticker_history tick a "1d" "5m" = Some intraday ∧
    ticker_history tick a "14d" "1d" = Some daily ∧
    daily ≠ [] ∧ last intraday = Some latest ∧ Volume latest = Some v.

(** A stored news item whose headline and description come from one of
    the first five entries of a feed answered for an asset of the list. *)
Definition reported (assets : list string) (headline : string)
    (info : news_item) : Prop :=
  source info = "Yahoo Finance" ∧
  ∃ a tick feed e,
    a ∈ assets ∧ parse tick (feed_url a) = Some feed ∧ e ∈ take 5 feed ∧
    title e = Some headline ∧ summary e = Some (description info) ∧
    (∀ p, published e = Some p → published_at info = p).

End World.

End DataIngestion.

(** Concrete worlds. *)
Definition demo_bars : list DataIngestion.bar :=
  [ {| DataIngestion.Close := 10; DataIngestion.Volume := Some 500%Z |};
    {| DataIngestion.Close := 11; DataIngestion.Volume := Some 700%Z |} ].

Definition demo_history (tick : nat) (asset period interval : string)
  : option (list DataIngestion.bar) :=
  if bool_decide (asset = "AAA") then Some demo_bars
  else if bool_decide (asset = "BBB") then None
  else Some [].

Definition demo_feed (tick : nat) (url : string)
  : option (list DataIngestion.entry) :=
  if bool_decide (url = "https://finance.yahoo.com/rss/headline?s=AAA") then
    Some [ {| DataIngestion.title := Some "AAA rallies";
              DataIngestion.summary := Some "Shares climb";
              DataIngestion.published := None |} ]
  else None.

Definition demo_clock (tick : nat) : string := "2026-01-05T16:00:00".

Definition stale_ingestion : DataIngestion.t :=
  {| DataIngestion.assets := ["BBB"];
     DataIngestion.market_data := ∅;
     DataIngestion.news_data :=
       {["Old story" := {| description := "Yesterday";
                           source := "Yahoo Finance";
                           published_at := "2026-01-04" |}]};
     DataIngestion.last_market_fetch := ∅ |}.

Definition demo_ingestion : DataIngestion.t :=
  {| DataIngestion.assets := ["AAA"; "BBB"; "CCC"];
     DataIngestion.market_data := {["CCC" := with_history rising_closes]};
     DataIngestion.news_data := ∅;
     DataIngestion.last_market_fetch := ∅ |}.

(** * Facts *)

(** ** Comparisons *)

Lemma Qlt_bool_iff (x y : Q) : Qlt_bool x y = true ↔ (x < y)%Q.
Proof.
  unfold Qlt_bool. rewrite negb_true_iff. split.
  - intros H. apply Qnot_le_lt. intros Hle.
    apply Qle_bool_iff in Hle. congruence.
  - intros H. destruct (Qle_bool y x) eqn:E; [|done].
    apply Qle_bool_iff in E. exfalso. exact (Qlt_not_le _ _ H E).
Qed.

Lemma Qlt_bool_false_iff (x y : Q) : Qlt_bool x y = false ↔ (y <= x)%Q.
Proof.
  unfold Qlt_bool. rewrite negb_false_iff. apply Qle_bool_iff.
Qed.

(** ** Facts about the series operations *)

Module PandasFacts.
Import Pandas.

Lemma length_diff_from prev s : length (diff_from prev s) = length s.
Proof. revert prev. induction s as [|x t IH]; intros prev; simpl; [done|]. by rewrite IH. Qed.

Lemma length_diff s : length (diff s) = length s.
Proof. apply length_diff_from. Qed.

Lemma length_rolling_mean w mp s : length (rolling_mean w mp s) = length s.
Proof. unfold rolling_mean. by rewrite length_map, length_seq. Qed.

Lemma Qsum_zero (l : list Q) : Forall (λ q, (q == 0)%Q) l → (Qsum l == 0)%Q.
Proof.
  induction 1 as [|q l Hq _ IH]; simpl; [reflexivity|].
  rewrite Hq, IH. reflexivity.
Qed.

Lemma valid_zero_cells (w : Series) :
  Forall zero_cell w →
  length (valid w) = length w ∧ Forall (λ q, (q == 0)%Q) (valid w).
Proof.
  induction 1 as [|c w [q [-> Hq]] _ [IHlen IHall]]; simpl; [done|].
  split; [by rewrite IHlen | by constructor].
Qed.

(** The mean of a non-empty window of zeros is a zero. *)
Lemma window_mean_zero (w : Series) :
  w ≠ [] → Forall zero_cell w → zero_cell (window_mean 1 w).
Proof.
  intros Hne Hall. destruct (valid_zero_cells w Hall) as [Hlen Hz].
  unfold window_mean. rewrite Hlen.
  destruct w as [|c w]; [done|]. simpl length.
  replace (S (length w) <? 1)%nat with false
    by (symmetry; apply Nat.ltb_ge; lia).
  eexists; split; [reflexivity|].
  unfold Qdiv. rewrite (Qsum_zero _ Hz). apply Qmult_0_l.
Qed.

Lemma window_at_nonempty window i (s : Series) :
  (0 < window)%nat → (i < length s)%nat → window_at window i s ≠ [].
Proof.
  intros Hw Hi Hnil. apply (f_equal length) in Hnil.
  unfold window_at in Hnil. rewrite length_take, length_drop in Hnil.
  simpl in Hnil. lia.
Qed.

Lemma window_at_Forall (P : cell → Prop) window i (s : Series) :
  Forall P s → Forall P (window_at window i s).
Proof. intros H. unfold window_at. by apply Forall_take, Forall_drop. Qed.

(** The rolling mean of a column of zeros is a column of zeros. *)
Lemma rolling_mean_zero window (s : Series) :
  (0 < window)%nat → Forall zero_cell s →
  Forall zero_cell (rolling_mean window 1 s).
Proof.
  intros Hw Hall. unfold rolling_mean. apply Forall_map, Forall_forall.
  intros i Hi%elem_of_seq. simpl.
  apply window_mean_zero.
  - apply window_at_nonempty; [done|lia].
  - by apply window_at_Forall.
Qed.

Lemma replace_nan_zero (s : Series) :
  Forall zero_cell s → Forall (λ c, c = None) (replace_nan 0 s).
Proof.
  intros H. unfold replace_nan. apply Forall_map.
  eapply Forall_impl; [exact H|]. intros c [q [-> Hq]]. simpl.
  by rewrite (Qeq_eq_bool _ _ Hq).
Qed.

Lemma div_nan_r (a b : Series) :
  Forall (λ c, c = None) b → Forall (λ c, c = None) (div a b).
Proof.
  intros Hb. revert a. induction Hb as [|c b -> _ IH]; intros [|x a]; simpl;
    try constructor; [by destruct x | apply IH].
Qed.

Lemma iloc_last_nan (s : Series) :
  Forall (λ c, c = None) s → iloc_last s = None.
Proof.
  unfold iloc_last. intros H. destruct (last s) as [c|] eqn:E; [|done].
  simpl. apply last_Some_elem_of in E.
  by apply (proj1 (Forall_forall _ _) H).
Qed.

End PandasFacts.

Section RsiFacts.
Import Pandas PandasFacts.

Lemma increasing_nondecreasing l : increasing l → nondecreasing l.
Proof.
  destruct l as [|x t]; [done|]. simpl. revert x.
  induction t as [|y t IH]; intros x; simpl; [done|].
  intros [Hlt H]. split; [by apply Qlt_le_weak | by apply IH].
Qed.

Lemma constant_nondecreasing l : constant l → nondecreasing l.
Proof.
  intros [c Hc]. destruct l as [|x t]; [done|]. simpl.
  inversion Hc as [|? ? Hx Ht]; subst. clear Hc. revert x Hx.
  induction Ht as [|y t Hy _ IH]; intros x Hx; simpl; [done|].
  split; [|by apply IH]. rewrite Hx, Hy. apply Qle_refl.
Qed.

Lemma diff_from_nonneg closes p :
  nondecreasing_from p closes →
  Forall nonneg_cell (diff_from (Some p) (map Some closes)).
Proof.
  revert p. induction closes as [|x t IH]; intros p; simpl; [constructor|].
  intros [Hle H]. constructor; [|by apply IH].
  simpl. unfold Qminus. by apply (proj1 (Qle_minus_iff p x)).
Qed.

(** On prices that never fall, no delta is negative. *)
Lemma diff_nonneg closes :
  nondecreasing closes → Forall nonneg_cell (diff (map Some closes)).
Proof.
  destruct closes as [|x t]; simpl; [constructor|].
  intros H. constructor; [done|]. by apply diff_from_nonneg.
Qed.

(** ... so every loss is zero, *)
Lemma rsi_loss_zero closes :
  nondecreasing closes → Forall zero_cell (rsi_loss (map Some closes)).
Proof.
  intros H. unfold rsi_loss, neg, where_. rewrite map_map.
  apply Forall_map. eapply Forall_impl; [exact (diff_nonneg _ H)|].
  intros [q|] Hq; simpl.
  - apply Qlt_bool_false_iff in Hq. rewrite Hq. simpl.
    eexists; split; reflexivity.
  - eexists; split; reflexivity.
Qed.

(** ... the rolling average loss is zero everywhere, *)
Lemma rsi_avg_loss_zero closes period :
  (0 < period)%nat → nondecreasing closes →
  Forall zero_cell (rsi_avg_loss (map Some closes) period).
Proof.
  intros Hp H. by apply rolling_mean_zero, rsi_loss_zero.
Qed.

(** ... and the RSI is NaN everywhere. *)
Lemma calculate_rsi_nan closes period :
  (0 < period)%nat → nondecreasing closes →
  Forall (λ c, c = None) (calculate_rsi (map Some closes) period).
Proof.
  intros Hp H. unfold calculate_rsi, rsi_rs. apply Forall_map.
  eapply Forall_impl.
  - apply div_nan_r, replace_nan_zero, rsi_avg_loss_zero; done.
  - by intros c ->.
Qed.

Lemma length_calculate_rsi closes period :
  length (calculate_rsi (map Some closes) period) = length closes.
Proof.
  unfold calculate_rsi, rsi_rs, div, rsi_avg_gain, rsi_avg_loss, replace_nan.
  rewrite length_map, length_zip_with, length_map, !length_rolling_mean.
  unfold rsi_gain, rsi_loss, neg, where_.
  rewrite !length_map, length_diff, length_map. lia.
Qed.

Lemma signal_of_nondecreasing data closes :
  daily_history data = Some closes → (14 <= length closes)%nat →
  nondecreasing closes →
  signal_of data = "No signal (insufficient data)".
Proof.
  intros Hd Hlen Hmono. unfold signal_of. rewrite Hd.
  replace (14 <=? length closes)%nat with true
    by (symmetry; by apply Nat.leb_le).
  simpl. by rewrite (iloc_last_nan _ (calculate_rsi_nan closes 14 ltac:(lia) Hmono)).
Qed.

Lemma diff_from_constant closes p c :
  (p == c)%Q → Forall (λ x, (x == c)%Q) closes →
  Forall zero_cell (diff_from (Some p) (map Some closes)).
Proof.
  intros Hp Hall. revert p Hp.
  induction Hall as [|x t Hx _ IH]; intros p Hp; simpl; constructor.
  - eexists; split; [reflexivity|]. rewrite Hx, Hp. ring.
  - by apply IH.
Qed.

(** Gains and losses are numbers, never negative and never NaN. *)
Lemma rsi_gain_nonneg s : Forall nonneg_number (rsi_gain s).
Proof.
  unfold rsi_gain, where_. apply Forall_map, Forall_forall. intros [q|] _; simpl.
  - destruct (Qlt_bool 0 q) eqn:E.
    + exists q. split; [done|]. apply Qlt_bool_iff in E. by apply Qlt_le_weak.
    + exists 0%Q. split; [done|]. apply Qle_refl.
  - exists 0%Q. split; [done|]. apply Qle_refl.
Qed.

Lemma rsi_loss_nonneg s : Forall nonneg_number (rsi_loss s).
Proof.
  unfold rsi_loss, neg, where_. rewrite map_map.
  apply Forall_map, Forall_forall. intros [q|] _; simpl.
  - destruct (Qlt_bool q 0) eqn:E; simpl.
    + exists (- q)%Q. split; [done|]. apply Qlt_bool_iff in E. lra.
    + exists (- 0)%Q. split; [done|]. lra.
  - exists (- 0)%Q. split; [done|]. lra.
Qed.

Lemma Qsum_nonneg (l : list Q) : Forall (λ q, (0 <= q)%Q) l → (0 <= Qsum l)%Q.
Proof.
  induction 1 as [|q l Hq _ IH]; simpl; [apply Qle_refl|]. lra.
Qed.

Lemma valid_numbers (w : Series) :
  Forall nonneg_number w →
  length (valid w) = length w ∧ Forall (λ q, (0 <= q)%Q) (valid w).
Proof.
  induction 1 as [|c w [q [-> Hq]] _ [IHlen IHall]]; simpl; [done|].
  split; [by rewrite IHlen | by constructor].
Qed.

Lemma window_mean_nonneg (w : Series) :
  w ≠ [] → Forall nonneg_number w → nonneg_number (window_mean 1 w).
Proof.
  intros Hne Hall. destruct (valid_numbers w Hall) as [Hlen Hpos].
  unfold window_mean. rewrite Hlen.
  destruct w as [|c w]; [done|]. simpl length.
  replace (S (length w) <? 1)%nat with false
    by (symmetry; apply Nat.ltb_ge; lia).
  eexists; split; [reflexivity|].
  apply Qle_shift_div_l.
  - unfold Qlt. simpl. lia.
  - rewrite Qmult_0_l. by apply Qsum_nonneg.
Qed.

Lemma rolling_mean_nonneg window (s : Series) :
  (0 < window)%nat → Forall nonneg_number s →
  Forall nonneg_number (rolling_mean window 1 s).
Proof.
  intros Hw Hall. unfold rolling_mean. apply Forall_map, Forall_forall.
  intros i Hi%elem_of_seq. simpl.
  apply window_mean_nonneg.
  - apply window_at_nonempty; [done|lia].
  - by apply window_at_Forall.
Qed.

(** No division of [calculate_rsi] has a zero divisor: the average loss
    is NaN or not zero once [replace(0, nan)] is done, ... *)
Lemma replaced_avg_loss_nonzero s period :
  Forall nonzero_cell (replace_nan 0 (rsi_avg_loss s period)).
Proof.
  unfold replace_nan. apply Forall_map, Forall_forall. intros [q|] _; simpl;
    [|done].
  destruct (Qeq_bool q 0) eqn:E; simpl; [done|]. by apply Qeq_bool_neq.
Qed.

Lemma rsi_rs_nonneg s period :
  (0 < period)%nat → Forall nonneg_cell (rsi_rs s period).
Proof.
  intros Hp. apply Forall_lookup. intros i c Hc.
  unfold rsi_rs, div in Hc. apply lookup_zip_with_Some in Hc.
  destruct Hc as [g [l [-> [Hg Hl]]]].
  pose proof (rolling_mean_nonneg period _ Hp (rsi_gain_nonneg s)) as Hgs.
  pose proof (rolling_mean_nonneg period _ Hp (rsi_loss_nonneg s)) as Hls.
  destruct (proj1 (Forall_lookup _ _) Hgs i g Hg) as [qg [-> Hqg]].
  unfold replace_nan in Hl. rewrite list_lookup_fmap in Hl.
  apply fmap_Some in Hl as [l0 [El ->]].
  destruct (proj1 (Forall_lookup _ _) Hls i l0 El) as [ql [-> Hql]].
  destruct (Qeq_bool ql 0) eqn:E; simpl; [done|].
  apply Qeq_bool_neq in E.
  apply Qle_shift_div_l; [|lra].
  destruct (Qlt_le_dec 0 ql) as [Hlt|Hle]; [done|].
  exfalso. apply E. by apply Qle_antisym.
Qed.

(** ... and [1 + rs] is positive. *)
Lemma one_plus_rs_positive s period :
  (0 < period)%nat →
  Forall (λ c, match c with Some rs => (0 < 1 + rs)%Q | None => True end)
         (rsi_rs s period).
Proof.
  intros Hp. eapply Forall_impl; [exact (rsi_rs_nonneg s period Hp)|].
  intros [q|] Hq; simpl in *; [lra|done].
Qed.

(** Where it is a number, the RSI lies in [0, 100]. *)
Lemma calculate_rsi_range s period :
  (0 < period)%nat → Forall (cell_within 0 100) (calculate_rsi s period).
Proof.
  intros Hp. unfold calculate_rsi. apply Forall_map.
  eapply Forall_impl; [exact (rsi_rs_nonneg s period Hp)|].
  intros [q|] Hq; simpl in *; [|done].
  assert (0 < 1 + q)%Q as Hpos by lra.
  assert (0 <= 100 / (1 + q))%Q as Hlo.
  { apply Qle_shift_div_l; [done|]. lra. }
  assert (100 / (1 + q) <= 100)%Q as Hhi.
  { apply Qle_shift_div_r; [done|]. lra. }
  split; lra.
Qed.

(** The detector on three series with losses in their last window. *)
Example dipping_overbought :
  signal_of (with_history dipping_closes) = "Momentum (Overbought)".
Proof. vm_compute. reflexivity. Qed.

Example falling_oversold :
  signal_of (with_history falling_closes) = "Momentum (Oversold)".
Proof. vm_compute. reflexivity. Qed.

Example zigzag_no_signal :
  signal_of (with_history zigzag_closes) = "No signal".
Proof. vm_compute. reflexivity. Qed.

End RsiFacts.

Lemma lookup_dict_for {A B} (f : string → A → B) (m : gmap string A) k :
  dict_for f m !! k = f k <$> m !! k.
Proof.
  unfold dict_for.
  apply (map_fold_weak_ind (λ r m, r !! k = f k <$> m !! k)).
  - by rewrite !lookup_empty.
  - intros i x m' r Hi IH. destruct (decide (i = k)) as [->|Hne].
    + by rewrite !lookup_insert_eq.
    + by rewrite !lookup_insert_ne.
Qed.

(** The loop of [detect_opportunities] labels each asset on its own. *)
Lemma lookup_detect_opportunities (market_data : gmap string market_record) a :
  detect_opportunities market_data !! a = signal_of <$> market_data !! a.
Proof. apply lookup_dict_for. Qed.

(** ** Strings *)

Lemma append_cons c (s t : string) : String c s ++ t = String c (s ++ t).
Proof. reflexivity. Qed.

Lemma prefix_spec (n h : string) :
  String.prefix n h = true ↔ ∃ post, h = n ++ post.
Proof.
  revert h. induction n as [|c n IH]; intros h.
  - destruct h; simpl; (split; [intros _; by eexists | done]).
  - destruct h as [|c' h]; simpl.
    + split; [done | intros [post Hp]; discriminate].
    + destruct (ascii_dec c c') as [->|Hne].
      * rewrite IH. split; intros [post Hp]; exists post;
          rewrite append_cons in *; congruence.
      * split; [done | intros [post Hp]; rewrite append_cons in Hp; congruence].
Qed.

Lemma is_substring_spec (n h : string) :
  is_substring n h = true ↔ contains h n.
Proof.
  unfold contains. induction h as [|c h IH].
  - change (is_substring n EmptyString) with (String.prefix n EmptyString || false).
    rewrite orb_false_r, prefix_spec. split.
    + intros [post Hp]. by exists EmptyString, post.
    + intros [pre [post Hp]]. destruct pre; [by exists post|discriminate].
  - change (is_substring n (String c h))
      with (String.prefix n (String c h) || is_substring n h).
    rewrite orb_true_iff, prefix_spec, IH. split.
    + intros [[post Hp]|[pre [post Hp]]].
      * by exists EmptyString, post.
      * exists (String c pre), post. by rewrite append_cons, Hp.
    + intros [pre [post Hp]]. destruct pre as [|c' pre].
      * left. by exists post.
      * right. exists pre, post. rewrite append_cons in Hp. congruence.
Qed.

(** ** alert_manager.py: the threshold rule *)

Lemma should_alert_spec sig (avg : Q) :
  should_alert sig avg = true ↔
  (contains sig "Oversold" ∧ (0.5 < avg)%Q) ∨
  (contains sig "Overbought" ∧ (avg < -0.5)%Q).
Proof.
  unfold should_alert.
  by rewrite orb_true_iff, !andb_true_iff, !is_substring_spec, !Qlt_bool_iff.
Qed.

Lemma alert_for_Some f sents a s e :
  alert_for f sents a s = Some e →
  asset (body e) = a ∧
  should_alert s (avg_compound (sentiment_info sents a)) = true.
Proof.
  unfold alert_for.
  destruct (should_alert s (avg_compound (sentiment_info sents a))); simpl;
    [|done].
  intros [= <-]. done.
Qed.

Lemma alert_for_fires f sents a s :
  should_alert s (avg_compound (sentiment_info sents a)) = true →
  ∃ e, alert_for f sents a s = Some e ∧ asset (body e) = a.
Proof.
  intros H. unfold alert_for. rewrite H. simpl. eexists; split; reflexivity.
Qed.

Lemma elem_of_process_alerts f (opp : gmap string string) sents e :
  e ∈ process_alerts f opp sents ↔
  ∃ a s, opp !! a = Some s ∧ alert_for f sents a s = Some e.
Proof.
  unfold process_alerts. rewrite list_elem_of_omap. split.
  - intros [[a s] [Hin He]]. apply elem_of_map_to_list in Hin. by exists a, s.
  - intros [a [s [Hin He]]]. exists (a, s). by rewrite elem_of_map_to_list.
Qed.

(** [send_email] is called for an asset exactly when its own signal and
    sentiment pass the thresholds. *)
Lemma alerted_iff f (opp : gmap string string) sents a s :
  opp !! a = Some s →
  (∃ e, e ∈ process_alerts f opp sents ∧ asset (body e) = a) ↔
  should_alert s (avg_compound (sentiment_info sents a)) = true.
Proof.
  intros Ha. split.
  - intros [e [He Hasset]]. apply elem_of_process_alerts in He.
    destruct He as [a' [s' [Ha' He]]].
    destruct (alert_for_Some _ _ _ _ _ He) as [Heq Hrule].
    rewrite Hasset in Heq. subst a'. by simplify_eq.
  - intros Hrule. destruct (alert_for_fires f sents a s Hrule) as [e [He Hasset]].
    exists e. split; [|done]. apply elem_of_process_alerts. by exists a, s.
Qed.

Lemma elem_of_process_alerts_sent self f (opp : gmap string string) sents m :
  m ∈ process_alerts_sent self f opp sents →
  msg m ∈ process_alerts f opp sents.
Proof.
  unfold process_alerts_sent. rewrite list_elem_of_omap.
  intros [e [He Hsend]]. unfold send_email in Hsend.
  repeat case_match; simplify_eq. done.
Qed.

Lemma delivered_alerted f self opp sents a :
  delivered f self opp sents a → alerted f opp sents a.
Proof.
  intros [m [Hm Ha]]. exists (msg m). split; [|done].
  by apply elem_of_process_alerts_sent with self.
Qed.


(** ** Sorting *)

Section Sorting.
Context {A : Type} (key : A → Q).

Lemma sort_insert_Permutation (lt : A → A → bool) x l :
  sort_insert lt x l ≡ₚ x :: l.
Proof.
  induction l as [|y l IH]; simpl; [done|].
  destruct (lt y x); [|done].
  rewrite IH. apply Permutation_swap.
Qed.

Lemma py_sort_Permutation (lt : A → A → bool) l : py_sort lt l ≡ₚ l.
Proof.
  induction l as [|x l IH]; simpl; [done|].
  by rewrite sort_insert_Permutation, IH.
Qed.










End Sorting.

(** ** asset_finder.py *)

Section AssetFinderFacts.
Context (yf : string → option yf_ticker) (annualized_std : list Q → Q).

Let fetch := fetch_asset_data yf annualized_std.

Lemma fetch_asset_data_ticker t d : fetch t = Some d → ticker d = t.
Proof.
  unfold fetch, fetch_asset_data. intros H.
  repeat case_match; simplify_eq; done.
Qed.

Lemma elem_of_scored_candidates self sents sd :
  sd ∈ scored_candidates fetch self sents ↔
  ∃ t d, t ∈ stock_candidates self ∧ fetch t = Some d ∧
         sd = score_asset sents d.
Proof.
  unfold scored_candidates. rewrite list_elem_of_omap. split.
  - intros [t [Ht Hsd]]. destruct (fetch t) as [d|] eqn:E; [|done].
    simpl in Hsd. exists t, d. by simplify_eq.
  - intros [t [d [Ht [Hd ->]]]]. exists t. by rewrite Hd.
Qed.

Lemma pe_score_spec pe : pe_score pe = Spec.pe_score pe.
Proof. unfold pe_score, Spec.pe_score. by destruct pe; simpl; try case_match. Qed.

Lemma score_asset_spec sents d :
  (score (score_asset sents d) ==
   Spec.composite (volatility d) (pe_ratio d)
     (avg_compound (sentiment_info sents (ticker d)))
     (count (sentiment_info sents (ticker d))))%Q.
Proof.
  unfold score_asset, Spec.composite, composite_score. simpl.
  rewrite pe_score_spec. unfold sentiment_weight, Spec.sentiment_weight.
  ring.
Qed.

Lemma target_assets_init key losers t m self :
  AssetFinder_init key losers t m = Some self →
  target_assets self = Z.max 5 (Z.min t 10).
Proof.
  unfold AssetFinder_init. intros H. repeat case_match; simplify_eq. done.
Qed.

Lemma slice_to_take {B} (n : Z) (l : list B) :
  (0 <= n)%Z → slice_to n l = take (Z.to_nat n) l.
Proof.
  intros H. unfold slice_to.
  by replace (0 <=? n)%Z with true by (symmetry; by apply Z.leb_le).
Qed.

End AssetFinderFacts.

(** ** sentiment_analyzer.py *)

Section SentimentFacts.
Local Open Scope list_scope.
Context (polarity_scores : string → polarity).
Context (news_data : gmap string news_item).

Lemma lookup_analyze_sentiment title :
  analyze_sentiment polarity_scores news_data !! title =
  (λ info, polarity_scores (title ++ " " ++ description info)%string)
    <$> news_data !! title.
Proof. apply lookup_dict_for. Qed.

Lemma headline_matches_known a title info :
  news_data !! title = Some info →
  headline_matches news_data a title = Some (matches_b news_data a title).
Proof.
  intros H. unfold headline_matches, matches_b. rewrite H. simpl.
  by destruct (is_substring (lower a) (lower title)).
Qed.

Lemma relate_headline_spec assets item m :
  is_Some (news_data !! item.1) →
  (∀ a, a ∈ assets → is_Some (m !! a)) →
  ∃ m', relate_headline news_data assets item m = Some m' ∧
        ∀ a, m' !! a = (λ l, l ++ appended news_data assets a item) <$> m !! a.
Proof.
  intros [info Hinfo]. unfold relate_headline, appended.
  revert m. induction assets as [|a0 assets IH]; intros m Hdom.
  - exists m. split; [done|]. intros a. simpl.
    destruct (m !! a) as [l|]; simpl; [|done].
    destruct (matches_b news_data a item.1); by rewrite app_nil_r.
  - cbn [for_each]. rewrite (headline_matches_known _ _ _ Hinfo). simpl.
    destruct (matches_b news_data a0 item.1) eqn:Em.
    + destruct (Hdom a0) as [l0 Hl0]; [by left|].
      unfold append_compound. rewrite Hl0. simpl.
      destruct (IH (<[a0 := l0 ++ [compound item.2]]> m)) as [m' [Hm' Hlook]].
      { intros a Ha. destruct (decide (a0 = a)) as [->|Hne].
        - rewrite lookup_insert_eq. eauto.
        - rewrite lookup_insert_ne by done. apply Hdom. by right. }
      exists m'. split; [done|]. intros a. rewrite Hlook.
      destruct (decide (a0 = a)) as [->|Hne].
      * rewrite lookup_insert_eq, Hl0, Em. simpl.
        destruct (string_dec a a); [|done]. simpl.
        by rewrite <- app_assoc.
      * rewrite lookup_insert_ne by done.
        destruct (m !! a); simpl; [|done].
        destruct (string_dec a0 a); [done|]. done.
    + destruct (IH m) as [m' [Hm' Hlook]].
      { intros a Ha. apply Hdom. by right. }
      exists m'. split; [done|]. intros a. rewrite Hlook.
      destruct (m !! a); simpl; [|done].
      destruct (string_dec a0 a) as [->|]; [|done]. by rewrite Em.
Qed.

Lemma for_each_relate_spec assets items m :
  (∀ item, item ∈ items → is_Some (news_data !! item.1)) →
  (∀ a, a ∈ assets → is_Some (m !! a)) →
  ∃ m', for_each (relate_headline news_data assets) items m = Some m' ∧
        ∀ a, m' !! a = (λ l, l ++ flat_map (appended news_data assets a) items) <$> m !! a.
Proof.
  revert m. induction items as [|item items IH]; intros m Hkeys Hdom.
  - exists m. split; [done|]. intros a. simpl.
    destruct (m !! a); simpl; [|done]. by rewrite app_nil_r.
  - destruct (relate_headline_spec assets item m) as [m1 [Hm1 Hl1]];
      [apply Hkeys; by left | done |].
    destruct (IH m1) as [m' [Hm' Hl']].
    { intros it Hit. apply Hkeys. by right. }
    { intros a Ha. rewrite Hl1. destruct (Hdom a Ha) as [l ->]. simpl. eauto. }
    exists m'. cbn [for_each]. rewrite Hm1. simpl. split; [done|].
    intros a. rewrite Hl', Hl1. destruct (m !! a); simpl; [|done].
    by rewrite <- app_assoc.
Qed.

Lemma lookup_initial_lists {B} (b : B) (assets : list string) a :
  (list_to_map ((λ x, (x, b)) <$> assets) : gmap string B) !! a =
  if decide (a ∈ assets) then Some b else None.
Proof.
  induction assets as [|x assets IH]; csimpl.
  - apply lookup_empty.
  - destruct (decide (x = a)) as [->|Hne].
    + rewrite lookup_insert_eq. by rewrite decide_True by left.
    + rewrite lookup_insert_ne by done. rewrite IH.
      destruct (decide (a ∈ assets)) as [Hin|Hnin].
      * by rewrite decide_True by (by right).
      * rewrite decide_False; [done|]. intros [->|?]%elem_of_cons; done.
Qed.

Lemma analyzed_items_known item :
  item ∈ map_to_list (analyze_sentiment polarity_scores news_data) →
  is_Some (news_data !! item.1).
Proof.
  destruct item as [t p]. rewrite elem_of_map_to_list, lookup_analyze_sentiment.
  simpl. destruct (news_data !! t); [eauto|done].
Qed.

(** The loop never raises, and every asset ends with the scores of the
    headlines that match it. *)
Lemma lookup_aggregate_sentiment assets a :
  aggregate_sentiment_by_asset polarity_scores news_data assets !! a =
  if decide (a ∈ assets)
  then Some (aggregate
               (flat_map (appended news_data assets a)
                  (map_to_list (analyze_sentiment polarity_scores news_data))))
  else None.
Proof.
  unfold aggregate_sentiment_by_asset.
  destruct (for_each_relate_spec assets
              (map_to_list (analyze_sentiment polarity_scores news_data))
              (list_to_map ((λ asset, (asset, [])) <$> assets)))
    as [m' [-> Hl]].
  - apply analyzed_items_known.
  - intros x Hx. rewrite lookup_initial_lists. by rewrite decide_True.
  - rewrite lookup_dict_for, Hl, lookup_initial_lists.
    by destruct (decide (a ∈ assets)).
Qed.

Lemma Qsum_app (l1 l2 : list Q) :
  (Pandas.Qsum (l1 ++ l2) == Pandas.Qsum l1 + Pandas.Qsum l2)%Q.
Proof.
  induction l1 as [|x l1 IH]; simpl; [ring|]. rewrite IH. ring.
Qed.

Lemma Qsum_replicate k (c : Q) :
  (Pandas.Qsum (replicate k c) == inject_Z (Z.of_nat k) * c)%Q.
Proof.
  induction k as [|k IH]; [reflexivity|].
  cbn [replicate Pandas.Qsum foldr]. fold (Pandas.Qsum (replicate k c)).
  rewrite IH, Nat2Z.inj_succ. unfold Z.succ. rewrite inject_Z_plus. ring.
Qed.

(** With [k] occurrences of the asset, every matched score is there [k]
    times. *)
Lemma appended_matched assets a items :
  flat_map (appended news_data assets a) items =
  flat_map (λ item, replicate (count_occ string_dec assets a) (compound item.2))
           (List.filter (λ item, matches_b news_data a item.1) items).
Proof.
  induction items as [|item items IH]; [done|]. cbn [flat_map List.filter].
  unfold appended at 1. destruct (matches_b news_data a item.1); simpl.
  - by rewrite IH.
  - done.
Qed.

Lemma length_replicated k (hs : list (string * polarity)) :
  length (flat_map (λ item, replicate k (compound item.2)) hs) =
  (k * length hs)%nat.
Proof.
  induction hs as [|h hs IH]; simpl; [lia|].
  rewrite length_app, length_replicate, IH. lia.
Qed.

Lemma Qsum_replicated k (hs : list (string * polarity)) :
  (Pandas.Qsum (flat_map (λ item, replicate k (compound item.2)) hs) ==
   inject_Z (Z.of_nat k) * Pandas.Qsum (map (λ item, compound item.2) hs))%Q.
Proof.
  induction hs as [|h hs IH]; simpl; [ring|].
  rewrite Qsum_app, Qsum_replicate, IH. ring.
Qed.

Lemma inject_nat_pos n : (0 < n)%nat → ¬ (inject_Z (Z.of_nat n) == 0)%Q.
Proof.
  intros Hn H. unfold Qeq in H. simpl in H. lia.
Qed.

(** The record computed from the replicated scores: the count is
    multiplied, the mean is the mean of the matched scores. *)
Lemma aggregate_replicated k (hs : list (string * polarity)) :
  (0 < k)%nat →
  let cs := map (λ item, compound item.2) hs in
  let r := aggregate (flat_map (λ item, replicate k (compound item.2)) hs) in
  count r = Z.of_nat (k * length hs) ∧
  (hs = [] → r = no_sentiment) ∧
  (hs ≠ [] →
   (avg_compound r == Pandas.Qsum cs / inject_Z (Z.of_nat (length cs)))%Q).
Proof.
  intros Hk cs r. subst cs r.
  pose proof (length_replicated k hs) as Hlen.
  pose proof (Qsum_replicated k hs) as Hsum.
  destruct (flat_map (λ item, replicate k (compound item.2)) hs)
    as [|c l] eqn:E.
  - assert (hs = []) as ->.
    { destruct hs; [done|]. simpl in Hlen. lia. }
    split; [simpl; lia|]. split; [done|]. by intros Hne.
  - cbn [aggregate count avg_compound]. rewrite Hlen.
    split; [done|]. split.
    + intros ->. simpl in Hlen. lia.
    + intros Hne. rewrite Hsum, length_map, Nat2Z.inj_mul, inject_Z_mult.
      field. split; apply inject_nat_pos; [|done].
      destruct hs; [done|simpl; lia].
Qed.

Lemma matches_b_spec a title info :
  news_data !! title = Some info →
  matches_b news_data a title = true ↔
  contains (lower title) (lower a) ∨
  contains (lower (description info)) (lower a).
Proof.
  intros H. unfold matches_b. rewrite H. simpl.
  by rewrite orb_true_iff, !is_substring_spec.
Qed.

Lemma elem_of_matched_headlines a t p :
  (t, p) ∈ matched_headlines polarity_scores news_data a ↔
  ∃ info, news_data !! t = Some info ∧
          p = polarity_scores (t ++ " " ++ description info)%string ∧
          (contains (lower t) (lower a) ∨
           contains (lower (description info)) (lower a)).
Proof.
  unfold matched_headlines.
  rewrite list_elem_of_In, filter_In, <- list_elem_of_In.
  rewrite elem_of_map_to_list, lookup_analyze_sentiment. simpl. split.
  - intros [Hp Hm]. destruct (news_data !! t) as [info|] eqn:E; [|done].
    exists info. simpl in Hp. split; [done|]. split; [congruence|].
    by apply (matches_b_spec a t info E).
  - intros [info [E [-> Hm]]]. rewrite E. split; [done|].
    by apply (matches_b_spec a t info E).
Qed.

Lemma NoDup_fst_filter {B} (f : string * B → bool) (l : list (string * B)) :
  NoDup l.*1 → NoDup (List.filter f l).*1.
Proof.
  induction l as [|x l IH]; [done|]. csimpl. intros [Hx Hl]%NoDup_cons.
  destruct (f x); csimpl; [|by apply IH].
  apply NoDup_cons. split; [|by apply IH].
  intros Hin. apply Hx. apply list_elem_of_fmap in Hin.
  destruct Hin as [y [-> Hy]]. apply list_elem_of_fmap. exists y.
  split; [done|]. apply list_elem_of_In in Hy. apply filter_In in Hy.
  apply list_elem_of_In. tauto.
Qed.

Lemma NoDup_matched_headlines a :
  NoDup (matched_headlines polarity_scores news_data a).*1.
Proof. apply NoDup_fst_filter, NoDup_fst_map_to_list. Qed.

Lemma count_occ_NoDup (assets : list string) a :
  NoDup assets → a ∈ assets → count_occ string_dec assets a = 1%nat.
Proof.
  intros Hnd Ha. apply list_elem_of_In in Ha. apply NoDup_ListNoDup in Hnd.
  by apply (proj1 (NoDup_count_occ' string_dec assets) Hnd).
Qed.

Lemma count_occ_pos (assets : list string) a :
  a ∈ assets → (0 < count_occ string_dec assets a)%nat.
Proof. intros Ha. apply list_elem_of_In in Ha. by apply count_occ_In. Qed.

End SentimentFacts.

(** * The claims *)

(** ** trading_detector.py *)

Section DetectorClaims.
Import Pandas PandasFacts.

(** C4.  An asset whose ["daily_history"] is missing or has fewer than 14
    closing prices is mapped to "No signal (insufficient history)". *)
Theorem short_history_insufficient
    (market_data : gmap string market_record) a d :
  market_data !! a = Some d →
  (daily_history d = None ∨
   ∃ closes, daily_history d = Some closes ∧ (length closes < 14)%nat) →
  detect_opportunities market_data !! a
  = Some "No signal (insufficient history)".
Proof.
  intros Ha Hshort. rewrite lookup_detect_opportunities, Ha. simpl. f_equal.
  unfold signal_of. destruct Hshort as [->|[closes [-> Hlen]]]; [done|].
  by replace (14 <=? length closes)%nat with false
    by (symmetry; apply Nat.leb_gt; lia).
Qed.

Lemma short_history_insufficient_witness :
  detect_opportunities short_market !! "NEW"
  = Some "No signal (insufficient history)".
Proof.
  apply (short_history_insufficient short_market "NEW"
           (with_history short_closes)).
  - reflexivity.
  - right. exists short_closes. split; [reflexivity | simpl; lia].
Defined.

(** C5.  On a constant sequence of at least 14 closing prices every delta
    after the first (which is NaN) is zero, the rolling average loss is 0
    at every point, the RSI is undefined at every point, and the asset is
    mapped to "No signal (insufficient data)". *)
Theorem constant_prices_insufficient_data
    (market_data : gmap string market_record) a d closes :
  market_data !! a = Some d →
  daily_history d = Some closes →
  (14 <= length closes)%nat →
  constant closes →
  Forall zero_cell (tail (diff (map Some closes))) ∧
  length (rsi_avg_loss (map Some closes) 14) = length closes ∧
  Forall zero_cell (rsi_avg_loss (map Some closes) 14) ∧
  Forall (λ c, c = None) (calculate_rsi (map Some closes) 14) ∧
  iloc_last (calculate_rsi (map Some closes) 14) = None ∧
  detect_opportunities market_data !! a
  = Some "No signal (insufficient data)".
Proof.
  intros Ha Hd Hlen Hconst.
  pose proof (constant_nondecreasing _ Hconst) as Hmono.
  pose proof (calculate_rsi_nan closes 14 ltac:(lia) Hmono) as Hnan.
  split; [|split; [|split; [|split; [|split]]]].
  - destruct Hconst as [c Hc]. destruct Hc as [|x t Hx Ht]; [constructor|].
    simpl. by apply diff_from_constant with c.
  - unfold rsi_avg_loss, rsi_loss, neg, where_.
    by rewrite length_rolling_mean, !length_map, length_diff, length_map.
  - apply rsi_avg_loss_zero; [lia|done].
  - done.
  - by apply iloc_last_nan.
  - rewrite lookup_detect_opportunities, Ha. simpl. f_equal.
    by apply signal_of_nondecreasing with closes.
Qed.

Lemma constant_prices_insufficient_data_witness :
  detect_opportunities flat_market !! "FLAT"
  = Some "No signal (insufficient data)".
Proof.
  apply (constant_prices_insufficient_data flat_market "FLAT"
           (with_history flat_closes) flat_closes).
  - reflexivity.
  - reflexivity.
  - simpl. lia.
  - exists 5%Q. unfold flat_closes. simpl. repeat constructor.
Defined.

(** C1, as stated, fails: the twenty closing prices 1, 2, ..., 20 rise
    strictly, the last RSI value is NaN, not a number above 70, and the
    asset is not labelled "Momentum (Overbought)". *)
Lemma rising_prices_not_overbought :
  increasing rising_closes ∧ length rising_closes = 20%nat ∧
  iloc_last (calculate_rsi (map Some rising_closes) 14) = None ∧
  detect_opportunities rising_market !! "UP"
  ≠ Some "Momentum (Overbought)".
Proof.
  split; [|split; [|split]].
  - unfold rising_closes. simpl. repeat split; reflexivity.
  - reflexivity.
  - vm_compute. reflexivity.
  - vm_compute. discriminate.
Qed.

(** C1, amended.  An asset whose ["daily_history"] is a monotonically
    increasing sequence of 20 closing prices is mapped to
    "No signal (insufficient data)": no delta is negative, so the rolling
    average loss is 0, [replace(0, nan)] turns it into NaN, and the last
    RSI value is undefined. *)
Theorem increasing_prices_insufficient_data
    (market_data : gmap string market_record) a d closes :
  market_data !! a = Some d →
  daily_history d = Some closes →
  length closes = 20%nat →
  increasing closes →
  Forall zero_cell (rsi_avg_loss (map Some closes) 14) ∧
  iloc_last (calculate_rsi (map Some closes) 14) = None ∧
  detect_opportunities market_data !! a
  = Some "No signal (insufficient data)".
Proof.
  intros Ha Hd Hlen Hinc.
  pose proof (increasing_nondecreasing _ Hinc) as Hmono.
  split; [|split].
  - apply rsi_avg_loss_zero; [lia|done].
  - by apply iloc_last_nan, calculate_rsi_nan; [lia|].
  - rewrite lookup_detect_opportunities, Ha. simpl. f_equal.
    apply signal_of_nondecreasing with closes; [done|lia|done].
Qed.

Lemma increasing_prices_insufficient_data_witness :
  detect_opportunities rising_market !! "UP"
  = Some "No signal (insufficient data)".
Proof.
  apply (increasing_prices_insufficient_data rising_market "UP"
           (with_history rising_closes) rising_closes).
  - reflexivity.
  - reflexivity.
  - reflexivity.
  - unfold rising_closes. simpl. repeat split; reflexivity.
Defined.

End DetectorClaims.

(** ** alert_manager.py *)

Section AlertClaims.
Context (fetch_company_profile : string → company_profile).


(** C10.  For an asset of [opportunities] without an entry in
    [asset_sentiments], [process_alerts] takes the default record
    [{avg_compound: 0.0, count: 0}]; 0.0 passes neither threshold, so
    whatever the signal no email is composed for the asset, and none
    reaches the SMTP server. *)
Theorem missing_sentiment_never_alerts self
    (opportunities : gmap string string)
    (asset_sentiments : gmap string sentiment) a s :
  opportunities !! a = Some s →
  asset_sentiments !! a = None →
  sentiment_info asset_sentiments a = {| avg_compound := 0; count := 0 |} ∧
  should_alert s 0 = false ∧
  ¬ alerted fetch_company_profile opportunities asset_sentiments a ∧
  ¬ delivered fetch_company_profile self opportunities asset_sentiments a.
Proof.
  intros Ha Hnone.
  assert (sentiment_info asset_sentiments a = no_sentiment) as Hinfo.
  { unfold sentiment_info. by rewrite Hnone. }
  assert (should_alert s 0 = false) as Hno.
  { unfold should_alert. apply orb_false_iff.
    split; apply andb_false_iff; right; reflexivity. }
  assert (¬ alerted fetch_company_profile opportunities asset_sentiments a)
    as Hnot.
  { unfold alerted. rewrite (alerted_iff _ _ _ _ _ Ha), Hinfo. simpl.
    by rewrite Hno. }
  split; [done|]. split; [done|]. split; [done|].
  intros Hd. apply Hnot. by apply delivered_alerted with self.
Qed.

End AlertClaims.


Lemma missing_sentiment_never_alerts_witness :
  ¬ alerted demo_profile demo_opportunities demo_sentiments "CCC".
Proof.
  apply (missing_sentiment_never_alerts demo_profile demo_manager
           demo_opportunities demo_sentiments "CCC" "Momentum (Oversold)").
  - reflexivity.
  - reflexivity.
Defined.

(** ** asset_finder.py and app.py *)

Section FinderClaims.
Context (yf : string → option yf_ticker) (annualized_std : list Q → Q).

(** C3.  A candidate ticker with fetched data [d] and sentiment record
    [info] is given the composite score 0.4 w + 0.3 v + 0.3 p, where [v]
    is the volatility, [w] is [|avg_compound|] when [count > 0] and 0.1
    otherwise, and [p] is [1/pe] for a finite positive [pe] and 0
    otherwise. *)
Theorem composite_score_assigned self
    (asset_sentiments : gmap string sentiment) t d :
  t ∈ stock_candidates self →
  fetch_asset_data yf annualized_std t = Some d →
  let info := sentiment_info asset_sentiments t in
  let scored :=
    scored_candidates (fetch_asset_data yf annualized_std) self
                      asset_sentiments in
  (∃ sd, sd ∈ scored ∧ data sd = d) ∧
  (∀ sd, sd ∈ scored → ticker (data sd) = t →
     data sd = d ∧
     (score sd == Spec.composite (volatility d) (pe_ratio d)
                    (avg_compound info) (count info))%Q).
Proof.
  intros Ht Hd info scored. subst info scored. split.
  - exists (score_asset asset_sentiments d). split; [|done].
    apply elem_of_scored_candidates. by exists t, d.
  - intros sd Hsd Hticker.
    apply elem_of_scored_candidates in Hsd.
    destruct Hsd as [t' [d' [Ht' [Hd' ->]]]]. simpl in Hticker.
    pose proof (fetch_asset_data_ticker _ _ _ _ Hd') as Heq.
    rewrite Hticker in Heq. subst t'.
    assert (d' = d) as -> by congruence.
    split; [done|].
    rewrite score_asset_spec.
    by rewrite (fetch_asset_data_ticker _ _ _ _ Hd).
Qed.


End FinderClaims.

Lemma composite_score_assigned_witness :
  ∃ sd, sd ∈ scored_candidates (fetch_asset_data demo_yf demo_std)
               demo_finder demo_sentiments ∧
        ticker (data sd) = "AAA" ∧ (score sd == 0.405)%Q.
Proof.
  destruct (composite_score_assigned demo_yf demo_std demo_finder
              demo_sentiments "AAA"
              {| ticker := "AAA"; market_cap := 1000000; volatility := 0.5;
                 pe_ratio := Finite 20 |}) as [[sd [Hsd Hdata]] Hscore].
  - unfold demo_finder. simpl. apply list_elem_of_In. simpl. tauto.
  - reflexivity.
  - exists sd. split; [exact Hsd|].
    assert (ticker (data sd) = "AAA") as Ht by (rewrite Hdata; reflexivity).
    split; [exact Ht|].
    destruct (Hscore sd Hsd Ht) as [_ Hs]. rewrite Hs. reflexivity.
Defined.


(** On the demo data "CCC" and "DDD" have no data, and "FFF" and "EEE"
    score the same and keep their order. *)
Example demo_ranking :
  find_interesting_assets (fetch_asset_data demo_yf demo_std)
    demo_finder demo_sentiments = ["AAA"; "BBB"; "FFF"; "EEE"].
Proof. vm_compute. reflexivity. Qed.

(** C8.  When [find_interesting_assets] returns an empty list, [main]
    goes on with the first 5 of its 10 hardcoded tickers. *)
Theorem empty_ranking_falls_back fetch asset_finder
    (asset_sentiments : gmap string sentiment) :
  find_interesting_assets fetch asset_finder asset_sentiments = [] →
  main_step4 fetch asset_finder asset_sentiments
  = ["DZSI"; "BBWI"; "ETSY"; "SENS"; "NGVC"] ∧
  main_step4 fetch asset_finder asset_sentiments = take 5 FALLBACK_LOSERS ∧
  length FALLBACK_LOSERS = 10%nat.
Proof.
  intros H. unfold main_step4. rewrite H. done.
Qed.

Lemma empty_ranking_falls_back_witness :
  main_step4 no_data demo_finder demo_sentiments
  = ["DZSI"; "BBWI"; "ETSY"; "SENS"; "NGVC"].
Proof.
  apply (empty_ranking_falls_back no_data demo_finder demo_sentiments).
  reflexivity.
Defined.



(** ** sentiment_analyzer.py *)

Section SentimentClaims.
Local Open Scope list_scope.

(** C6, as stated, fails on a list that names a ticker twice: with the one
    headline "ABC rallies" and the tickers ["ABC"; "ABC"] there is one
    match, and the count is 2. *)
Lemma repeated_ticker_counted_twice :
  length (matched_headlines strong_polarity abc_news "ABC") = 1%nat ∧
  count <$> (aggregate_sentiment_by_asset strong_polarity abc_news
               ["ABC"; "ABC"] !! "ABC") = Some 2%Z.
Proof. split; vm_compute; reflexivity. Qed.

(** C6, amended.  A headline counts toward a ticker exactly when the
    lower-cased ticker is a substring of the lower-cased headline or
    description.  For a ticker of the list, the record returned has the
    arithmetic mean of the matched compound scores, and its count is the
    number of matches times the number of occurrences of the ticker in
    the list (the number of matches when the list names it once); without
    a match the record is [{avg_compound: 0.0, count: 0}].  One headline
    "ABC rallies" with compound 0.8 against ["ABC"] yields
    [{avg_compound: 0.8, count: 1}]. *)
Theorem aggregate_by_asset (polarity_scores : string → polarity)
    (news_data : gmap string news_item) (assets : list string) a :
  a ∈ assets →
  let hs := matched_headlines polarity_scores news_data a in
  let cs := map (λ item, compound item.2) hs in
  NoDup hs.*1 ∧
  (∀ t p, (t, p) ∈ hs ↔
     ∃ info, news_data !! t = Some info ∧
             p = polarity_scores (t ++ " " ++ description info)%string ∧
             (contains (lower t) (lower a) ∨
              contains (lower (description info)) (lower a))) ∧
  (∃ r, aggregate_sentiment_by_asset polarity_scores news_data assets !! a
        = Some r ∧
        count r = Z.of_nat (count_occ string_dec assets a * length hs) ∧
        (NoDup assets → count r = Z.of_nat (length hs)) ∧
        (hs = [] → r = {| avg_compound := 0; count := 0 |}) ∧
        (hs ≠ [] →
         (avg_compound r
          == Pandas.Qsum cs / inject_Z (Z.of_nat (length cs)))%Q)) ∧
  (∀ info, news_data = {["ABC rallies" := info]} → assets = ["ABC"] →
     a = "ABC" →
     (compound (polarity_scores
                  ("ABC rallies" ++ " " ++ description info)%string)
      == 0.8)%Q →
     ∃ r, aggregate_sentiment_by_asset polarity_scores news_data assets !! a
          = Some r ∧
          (avg_compound r == 0.8)%Q ∧ count r = 1%Z).
Proof.
  intros Ha hs cs.
  assert (∃ r, aggregate_sentiment_by_asset polarity_scores news_data assets
               !! a = Some r ∧
          count r = Z.of_nat (count_occ string_dec assets a * length hs) ∧
          (NoDup assets → count r = Z.of_nat (length hs)) ∧
          (hs = [] → r = {| avg_compound := 0; count := 0 |}) ∧
          (hs ≠ [] →
           (avg_compound r
            == Pandas.Qsum cs / inject_Z (Z.of_nat (length cs)))%Q))
    as Hmain.
  { rewrite lookup_aggregate_sentiment, decide_True by done.
    rewrite appended_matched.
    fold (matched_headlines polarity_scores news_data a). fold hs.
    destruct (aggregate_replicated (count_occ string_dec assets a) hs
                (count_occ_pos _ _ Ha)) as [Hcount [Hnil Hmean]].
    eexists. split; [reflexivity|]. split; [exact Hcount|].
    split; [|split; [exact Hnil | exact Hmean]].
    intros Hnd. rewrite Hcount, (count_occ_NoDup _ _ Hnd Ha). f_equal. lia. }
  split; [apply NoDup_matched_headlines|].
  split; [apply elem_of_matched_headlines|].
  split; [exact Hmain|].
  intros info -> -> -> Hc.
  destruct Hmain as [r [Hr [Hcount [_ [_ Hmean]]]]].
  exists r. split; [exact Hr|].
  assert (hs = [("ABC rallies",
                 polarity_scores
                   ("ABC rallies" ++ " " ++ description info)%string)])
    as Hhs.
  { subst hs. unfold matched_headlines, analyze_sentiment, dict_for.
    rewrite map_fold_singleton, insert_empty, map_to_list_singleton.
    reflexivity. }
  subst cs. rewrite Hhs in *. split.
  - rewrite Hmean by done. simpl. rewrite Hc. reflexivity.
  - rewrite Hcount. reflexivity.
Qed.

Lemma aggregate_by_asset_witness :
  ∃ r, aggregate_sentiment_by_asset strong_polarity abc_news ["ABC"] !! "ABC"
       = Some r ∧ (avg_compound r == 0.8)%Q ∧ count r = 1%Z.
Proof.
  destruct (aggregate_by_asset strong_polarity abc_news ["ABC"] "ABC")
    as [_ [_ [_ Hex]]].
  - apply list_elem_of_In. simpl. tauto.
  - apply (Hex {| description := "Shares climb after earnings";
                  source := "Yahoo Finance"; published_at := "2026-01-05" |});
      reflexivity.
Defined.

End SentimentClaims.
(** * Further properties *)

(** ** trading_detector.py *)

Section DetectorMore.
Import Pandas PandasFacts.

Lemma map_fmap {A B} (f : A → B) (l : list A) : map f l = f <$> l.
Proof. reflexivity. Qed.

Lemma lookup_map {A B} (f : A → B) (l : list A) i :
  map f l !! i = f <$> l !! i.
Proof. rewrite map_fmap. apply list_lookup_fmap. Qed.

Lemma replace_nan_nan_if v s : replace_nan v s = map (nan_if v) s.
Proof. reflexivity. Qed.

Lemma length_rsi_gain s : length (rsi_gain s) = length s.
Proof. unfold rsi_gain, where_. by rewrite length_map, length_diff. Qed.

Lemma length_rsi_loss s : length (rsi_loss s) = length s.
Proof. unfold rsi_loss, neg, where_. by rewrite !length_map, length_diff. Qed.

Lemma length_calculate_rsi_series s period :
  length (calculate_rsi s period) = length s.
Proof.
  unfold calculate_rsi, rsi_rs, div, rsi_avg_gain, rsi_avg_loss, replace_nan.
  rewrite length_map, length_zip_with, length_map, !length_rolling_mean.
  rewrite length_rsi_gain, length_rsi_loss. lia.
Qed.

Lemma lookup_rolling_mean window mp (s : Series) i :
  (i < length s)%nat →
  rolling_mean window mp s !! i = Some (window_mean mp (window_at window i s)).
Proof.
  intros Hi. unfold rolling_mean, Series, cell in *. rewrite lookup_map.
  rewrite lookup_seq_lt by done. reflexivity.
Qed.

(** Row [i] of the RSI, from the two windows that end at [i]. *)
Lemma lookup_calculate_rsi s period i :
  (i < length s)%nat →
  calculate_rsi s period !! i =
  Some (rsi_of (window_mean 1 (window_at period i (rsi_gain s)))
               (window_mean 1 (window_at period i (rsi_loss s)))).
Proof.
  intros Hi. unfold calculate_rsi, rsi_rs, div, Series, cell in *.
  rewrite lookup_map.
  rewrite lookup_zip_with. unfold rsi_avg_gain, rsi_avg_loss.
  rewrite replace_nan_nan_if, lookup_map.
  rewrite !lookup_rolling_mean
    by (by rewrite ?length_rsi_gain, ?length_rsi_loss).
  reflexivity.
Qed.

Lemma iloc_last_calculate_rsi s period k :
  length s = S k →
  iloc_last (calculate_rsi s period) =
  rsi_of (window_mean 1 (window_at period k (rsi_gain s)))
         (window_mean 1 (window_at period k (rsi_loss s))).
Proof.
  intros Hlen. unfold iloc_last.
  rewrite last_lookup, length_calculate_rsi_series, Hlen. simpl.
  rewrite lookup_calculate_rsi by lia. reflexivity.
Qed.

(** X1.  Whatever the series, and for every positive period,
    [calculate_rsi] returns one value per input row, and each value is
    NaN or a number between 0 and 100. *)
Theorem rsi_between_0_and_100 (s : Series) period :
  (0 < period)%nat →
  length (calculate_rsi s period) = length s ∧
  Forall (cell_within 0 100) (calculate_rsi s period).
Proof.
  intros Hp. split.
  - apply length_calculate_rsi_series.
  - by apply calculate_rsi_range.
Qed.

Lemma rsi_between_0_and_100_witness :
  Forall (cell_within 0 100) (calculate_rsi (map Some zigzag_closes) 14).
Proof.
  apply (rsi_between_0_and_100 (map Some zigzag_closes) 14). lia.
Defined.

(** X2.  [calculate_rsi] never divides by zero: after [replace(0, nan)]
    every average loss is NaN or differs from zero, and wherever [rs] is a
    number it is not negative, so that [1 + rs] is positive. *)
Theorem rsi_never_divides_by_zero (s : Series) period :
  (0 < period)%nat →
  Forall nonzero_cell (replace_nan 0 (rsi_avg_loss s period)) ∧
  Forall nonneg_cell (rsi_rs s period) ∧
  Forall (λ c, match c with Some rs => (0 < 1 + rs)%Q | None => True end)
         (rsi_rs s period).
Proof.
  intros Hp. split; [|split].
  - apply replaced_avg_loss_nonzero.
  - by apply rsi_rs_nonneg.
  - by apply one_plus_rs_positive.
Qed.

Lemma rsi_never_divides_by_zero_witness :
  Forall nonzero_cell
    (replace_nan 0 (rsi_avg_loss (map Some falling_closes) 14)).
Proof.
  apply (rsi_never_divides_by_zero (map Some falling_closes) 14). lia.
Defined.

Lemma signal_of_cases d :
  (short_history d ∧ signal_of d = "No signal (insufficient history)") ∨
  (last_rsi d None ∧ signal_of d = "No signal (insufficient data)") ∨
  (∃ r, last_rsi d (Some r) ∧ (70 < r)%Q ∧
        signal_of d = "Momentum (Overbought)") ∨
  (∃ r, last_rsi d (Some r) ∧ (r < 30)%Q ∧
        signal_of d = "Momentum (Oversold)") ∨
  (∃ r, last_rsi d (Some r) ∧ (30 <= r <= 70)%Q ∧
        signal_of d = "No signal").
Proof.
  unfold signal_of, short_history, last_rsi.
  destruct (daily_history d) as [closes|]; [|left; by split; [left|]].
  destruct (14 <=? length closes)%nat eqn:Elen.
  2: { apply Nat.leb_gt in Elen. left. split; [|done]. right. by exists closes. }
  apply Nat.leb_le in Elen. right. cbn zeta.
  destruct (iloc_last (calculate_rsi (map Some closes) 14)) as [r|] eqn:Er.
  2: { left. split; [|done]. by exists closes. }
  right.
  destruct (Qlt_bool 70 r) eqn:E70.
  { left. exists r. apply Qlt_bool_iff in E70. split; [by exists closes|done]. }
  apply Qlt_bool_false_iff in E70. right.
  destruct (Qlt_bool r 30) eqn:E30.
  { left. exists r. apply Qlt_bool_iff in E30. split; [by exists closes|done]. }
  apply Qlt_bool_false_iff in E30. right. exists r.
  split; [by exists closes|done].
Qed.

Lemma last_rsi_functional d r1 r2 : last_rsi d r1 → last_rsi d r2 → r1 = r2.
Proof.
  intros [c1 [H1 [_ <-]]] [c2 [H2 [_ <-]]]. congruence.
Qed.

Lemma short_history_no_rsi d r : short_history d → last_rsi d r → False.
Proof.
  intros [Hn|[c [Hc Hlen]]] [c' [Hc' [Hlen' _]]]; [congruence|].
  assert (c = c') by congruence. subst. lia.
Qed.

Ltac label_contradiction :=
  match goal with
  | Hs : short_history ?d, Hr : last_rsi ?d _ |- _ =>
      exact (short_history_no_rsi _ _ Hs Hr)
  | H1 : last_rsi ?d None, H2 : last_rsi ?d (Some _) |- _ =>
      pose proof (last_rsi_functional _ _ _ H1 H2); discriminate
  | H1 : last_rsi ?d (Some ?r), H2 : last_rsi ?d (Some ?r') |- _ =>
      let E := fresh in
      pose proof (last_rsi_functional _ _ _ H1 H2) as E;
      injection E as E; subst; lra
  end.

Ltac label_iff :=
  split;
  [ let Heq := fresh in
    intros Heq;
    first [ discriminate Heq | assumption
          | eexists; split; [eassumption | assumption] ]
  | let HP := fresh in
    intros HP;
    first [ reflexivity
          | exfalso;
            match type of HP with
            | ex _ => let r := fresh in let Hr := fresh in let Hb := fresh in
                      destruct HP as [r [Hr Hb]]
            | _ => idtac
            end;
            label_contradiction ] ].

(** X3.  [detect_opportunities] labels exactly the assets of
    [market_data], always with one of its five labels, and each label
    tells the case: "insufficient history" only for a missing or short
    history, "insufficient data" only for a NaN RSI, "Overbought" only
    above 70, "Oversold" only below 30, and "No signal" only from 30 to 70,
    both bounds included. *)
Theorem labels_tell_the_case (market_data : gmap string market_record) :
  dom (detect_opportunities market_data) = dom market_data ∧
  ∀ a l, detect_opportunities market_data !! a = Some l →
    l ∈ signal_labels ∧
    ∃ d, market_data !! a = Some d ∧
      (l = "No signal (insufficient history)" ↔ short_history d) ∧
      (l = "No signal (insufficient data)" ↔ last_rsi d None) ∧
      (l = "Momentum (Overbought)" ↔
       ∃ r, last_rsi d (Some r) ∧ (70 < r)%Q) ∧
      (l = "Momentum (Oversold)" ↔ ∃ r, last_rsi d (Some r) ∧ (r < 30)%Q) ∧
      (l = "No signal" ↔ ∃ r, last_rsi d (Some r) ∧ (30 <= r <= 70)%Q).
Proof.
  split.
  - apply set_eq. intros a. rewrite !elem_of_dom, lookup_detect_opportunities.
    by rewrite fmap_is_Some.
  - intros a l Hl. rewrite lookup_detect_opportunities in Hl.
    apply fmap_Some in Hl as [d [Hd ->]].
    destruct (signal_of_cases d)
      as [[Hs ->]|[[Hr ->]|[[r [Hr [Hlt ->]]]|[[r [Hr [Hlt ->]]]|
          [r [Hr [Hlt ->]]]]]]];
      (split; [unfold signal_labels; set_solver|]);
      exists d; (split; [done|]);
      (split; [label_iff|]); (split; [label_iff|]);
      (split; [label_iff|]); (split; [label_iff|]); label_iff.
Qed.

Lemma labels_tell_the_case_witness :
  "Momentum (Oversold)" ∈ signal_labels.
Proof.
  apply (proj2 (labels_tell_the_case falling_market) "DOWN"
           "Momentum (Oversold)").
  vm_compute. reflexivity.
Defined.

Lemma lookup_diff_from (s : Series) prev i a b :
  s !! i = Some a → s !! S i = Some b →
  diff_from prev s !! S i = Some (cell_sub b a).
Proof.
  revert prev i. induction s as [|x t IH]; intros prev i Ha Hb; [done|].
  destruct i as [|i]; simpl in *.
  - injection Ha as ->. destruct t as [|y t']; [done|].
    simpl in *. by injection Hb as ->.
  - by apply IH.
Qed.

Lemma elem_of_window_at window (s : Series) k c :
  (0 < window)%nat → s !! k = Some c → c ∈ window_at window k s.
Proof.
  intros Hw Hk. unfold window_at. apply list_elem_of_lookup.
  exists (k - (S k - window))%nat.
  rewrite lookup_take_lt by lia. rewrite lookup_drop.
  by replace (S k - window + (k - (S k - window)))%nat with k by lia.
Qed.

Lemma Qsum_pos (l : list Q) x :
  Forall (λ q, (0 <= q)%Q) l → x ∈ l → (0 < x)%Q → (0 < Qsum l)%Q.
Proof.
  intros Hall Hx Hpos. induction Hall as [|q l Hq Hall IH]; [by inversion Hx|].
  simpl. apply elem_of_cons in Hx as [<-|Hx].
  - pose proof (Qsum_nonneg l Hall). lra.
  - specialize (IH Hx). lra.
Qed.

Lemma elem_of_valid (w : Series) q : Some q ∈ w → q ∈ valid w.
Proof.
  intros H. unfold valid. apply list_elem_of_omap. by exists (Some q).
Qed.

(** The mean of a window without negative numbers and with a positive one
    is positive. *)
Lemma window_mean_pos (w : Series) q :
  Forall nonneg_number w → Some q ∈ w → (0 < q)%Q →
  ∃ m, window_mean 1 w = Some m ∧ (0 < m)%Q.
Proof.
  intros Hall Hq Hpos. destruct (valid_numbers w Hall) as [Hlen Hnn].
  unfold window_mean. rewrite Hlen.
  destruct w as [|c w]; [by inversion Hq|]. simpl length.
  replace (S (length w) <? 1)%nat with false
    by (symmetry; apply Nat.ltb_ge; lia).
  eexists; split; [reflexivity|].
  apply Qlt_shift_div_l.
  - unfold Qlt. simpl. lia.
  - rewrite Qmult_0_l. apply Qsum_pos with q; [done | by apply elem_of_valid | done].
Qed.

Lemma diff_from_nonpos closes p :
  nonincreasing_from p closes →
  Forall (λ c, match c with Some q => (q <= 0)%Q | None => True end)
         (diff_from (Some p) (map Some closes)).
Proof.
  revert p. induction closes as [|x t IH]; intros p; simpl; [constructor|].
  intros [Hle H]. constructor; [|by apply IH]. simpl. lra.
Qed.

(** On prices that never rise every gain is zero. *)
Lemma rsi_gain_zero closes :
  nonincreasing closes → Forall zero_cell (rsi_gain (map Some closes)).
Proof.
  intros H. unfold rsi_gain, where_. apply Forall_map.
  assert (Forall (λ c, match c with Some q => (q <= 0)%Q | None => True end)
                 (diff (map Some closes))) as Hd.
  { destruct closes as [|x t]; simpl; [constructor|].
    constructor; [done|]. by apply diff_from_nonpos. }
  eapply Forall_impl; [exact Hd|].
  intros [q|] Hq; simpl.
  - replace (Qlt_bool 0 q) with false
      by (symmetry; by apply Qlt_bool_false_iff).
    eexists; split; reflexivity.
  - eexists; split; reflexivity.
Qed.

(** The RSI of a row without gain and with some loss is 0. *)
Lemma rsi_of_no_gain g l :
  (g == 0)%Q → (0 < l)%Q →
  ∃ r, rsi_of (Some g) (Some l) = Some r ∧ (r == 0)%Q.
Proof.
  intros Hg Hl. unfold rsi_of, nan_if.
  replace (Qeq_bool l 0) with false.
  2: { symmetry. apply not_true_iff_false. intros E.
       apply Qeq_bool_iff in E. lra. }
  simpl. eexists; split; [reflexivity|].
  assert (g / l == 0)%Q as -> by (rewrite Hg; unfold Qdiv; ring).
  reflexivity.
Qed.

(** X4.  When the prices never rise and the last close is below the one
    before, the last RSI value is 0 and the asset is labelled
    "Momentum (Oversold)": a series of pure losses does give its signal,
    unlike a series of pure gains. *)
Theorem falling_prices_oversold
    (market_data : gmap string market_record) a d closes pre x y :
  market_data !! a = Some d →
  daily_history d = Some closes →
  (14 <= length closes)%nat →
  nonincreasing closes →
  closes = (pre ++ [x; y])%list → (y < x)%Q →
  (∃ r, iloc_last (calculate_rsi (map Some closes) 14) = Some r ∧
        (r == 0)%Q) ∧
  detect_opportunities market_data !! a = Some "Momentum (Oversold)".
Proof.
  intros Ha Hd Hlen Hmono Hsplit Hdrop.
  set (k := S (length pre)).
  assert (length (map Some closes) = S k) as Hk.
  { rewrite length_map, Hsplit, length_app. simpl. lia. }
  assert (∃ r, iloc_last (calculate_rsi (map Some closes) 14) = Some r ∧
               (r == 0)%Q) as [r [Hr Hr0]].
  { rewrite (iloc_last_calculate_rsi _ 14 k Hk).
    destruct (window_mean_zero (window_at 14 k (rsi_gain (map Some closes))))
      as [g [-> Hg]].
    { apply window_at_nonempty; [lia|]. rewrite length_rsi_gain.
      unfold Series, cell in *. lia. }
    { by apply window_at_Forall, rsi_gain_zero. }
    destruct (window_mean_pos (window_at 14 k (rsi_loss (map Some closes)))
                (- (y - x))%Q) as [l [-> Hl]].
    { apply window_at_Forall, rsi_loss_nonneg. }
    { apply elem_of_window_at; [lia|].
      unfold rsi_loss, neg, where_, Series, cell in *. rewrite !lookup_map.
      unfold diff, k.
      rewrite (lookup_diff_from _ None (length pre) (Some x) (Some y)).
      - simpl. by replace (Qlt_bool (y - x) 0) with true
          by (symmetry; apply Qlt_bool_iff; lra).
      - unfold Series, cell.
        rewrite Hsplit, lookup_map, lookup_app_r by lia.
        by rewrite Nat.sub_diag.
      - unfold Series, cell.
        rewrite Hsplit, lookup_map, lookup_app_r by lia.
        by replace (S (length pre) - length pre)%nat with 1%nat by lia. }
    { lra. }
    by apply rsi_of_no_gain. }
  split; [by exists r|].
  rewrite lookup_detect_opportunities, Ha. simpl. f_equal.
  unfold signal_of. rewrite Hd.
  replace (14 <=? length closes)%nat with true
    by (symmetry; by apply Nat.leb_le).
  cbn zeta. rewrite Hr.
  replace (Qlt_bool 70 r) with false
    by (symmetry; apply Qlt_bool_false_iff; rewrite Hr0; done).
  by replace (Qlt_bool r 30) with true
    by (symmetry; apply Qlt_bool_iff; rewrite Hr0; done).
Qed.

Lemma falling_prices_oversold_witness :
  detect_opportunities sliding_market !! "SLIDE" = Some "Momentum (Oversold)".
Proof.
  apply (falling_prices_oversold sliding_market "SLIDE"
           (with_history sliding_closes) sliding_closes
           [20; 19; 18; 17; 16; 15; 14; 13; 12; 11; 10; 9; 8]%Q 7%Q 6%Q).
  - reflexivity.
  - reflexivity.
  - simpl. lia.
  - unfold sliding_closes. simpl. repeat split; unfold Qle; simpl; lia.
  - reflexivity.
  - reflexivity.
Defined.







Lemma cell_equiv_refl c : cell_equiv c c.
Proof. destruct c; simpl; [reflexivity|done]. Qed.





Lemma scaled_valid k (w1 w2 : Series) :
  Forall2 (scaled k) w1 w2 →
  Forall2 (λ a b, (b == k * a)%Q) (valid w1) (valid w2).
Proof.
  induction 1 as [|c1 c2 w1 w2 Hc _ IH]; simpl; [constructor|].
  destruct c1 as [a|], c2 as [b|]; simpl in *; try done.
  by constructor.
Qed.

Lemma scaled_Qsum k (l1 l2 : list Q) :
  Forall2 (λ a b, (b == k * a)%Q) l1 l2 → (Qsum l2 == k * Qsum l1)%Q.
Proof.
  induction 1 as [|a b l1 l2 Hab _ IH]; simpl; [ring|].
  rewrite Hab, IH. ring.
Qed.

Lemma scaled_window_mean k mp (w1 w2 : Series) :
  Forall2 (scaled k) w1 w2 →
  scaled k (window_mean mp w1) (window_mean mp w2).
Proof.
  intros H. apply scaled_valid in H.
  unfold window_mean. rewrite <- (Forall2_length _ _ _ H).
  destruct (length (valid w1) <? mp)%nat; simpl; [done|].
  rewrite (scaled_Qsum _ _ _ H). unfold Qdiv. ring.
Qed.

Lemma scaled_rolling_mean k window mp (s1 s2 : Series) :
  Forall2 (scaled k) s1 s2 →
  Forall2 (scaled k) (rolling_mean window mp s1) (rolling_mean window mp s2).
Proof.
  intros H. unfold rolling_mean. rewrite <- (Forall2_length _ _ _ H).
  rewrite !map_fmap. apply Forall2_fmap, Forall_Forall2_diag, Forall_forall.
  intros i _. apply scaled_window_mean. unfold window_at.
  by apply Forall2_take, Forall2_drop.
Qed.






End DetectorMore.

(** ** alert_manager.py *)

Section AlertsMore.
Context (fetch_company_profile : string → company_profile).

Lemma should_alert_oversold avg :
  should_alert "Momentum (Oversold)" avg = Qlt_bool 0.5 avg.
Proof.
  unfold should_alert.
  replace (is_substring "Oversold" "Momentum (Oversold)") with true
    by reflexivity.
  replace (is_substring "Overbought" "Momentum (Oversold)") with false
    by reflexivity.
  simpl. by rewrite orb_false_r.
Qed.

Lemma should_alert_overbought avg :
  should_alert "Momentum (Overbought)" avg = Qlt_bool avg (-0.5).
Proof.
  unfold should_alert.
  replace (is_substring "Oversold" "Momentum (Overbought)") with false
    by reflexivity.
  replace (is_substring "Overbought" "Momentum (Overbought)") with true
    by reflexivity.
  done.
Qed.

Lemma should_alert_no_signal l avg :
  l = "No signal" ∨ l = "No signal (insufficient data)" ∨
  l = "No signal (insufficient history)" →
  should_alert l avg = false.
Proof.
  unfold should_alert. intros [-> | [-> | ->]].
  - replace (is_substring "Oversold" "No signal") with false by reflexivity.
    by replace (is_substring "Overbought" "No signal") with false
      by reflexivity.
  - replace (is_substring "Oversold" "No signal (insufficient data)")
      with false by reflexivity.
    by replace (is_substring "Overbought" "No signal (insufficient data)")
      with false by reflexivity.
  - replace (is_substring "Oversold" "No signal (insufficient history)")
      with false by reflexivity.
    by replace (is_substring "Overbought" "No signal (insufficient history)")
      with false by reflexivity.
Qed.

(** X7.  Detector and alert manager together: an alert goes out for an
    asset exactly when it has market data with at least 14 daily closes
    and its last RSI is a number, either below 30 with an average
    sentiment above 0.5 or above 70 with an average sentiment below
    -0.5. *)
Theorem alert_needs_rsi_and_sentiment
    (market_data : gmap string market_record)
    (asset_sentiments : gmap string sentiment) a :
  alerted fetch_company_profile (detect_opportunities market_data)
          asset_sentiments a ↔
  ∃ d r, market_data !! a = Some d ∧ last_rsi d (Some r) ∧
         let avg := avg_compound (sentiment_info asset_sentiments a) in
         ((r < 30)%Q ∧ (0.5 < avg)%Q) ∨ ((70 < r)%Q ∧ (avg < -0.5)%Q).
Proof.
  set (avg := avg_compound (sentiment_info asset_sentiments a)).
  destruct (market_data !! a) as [d|] eqn:Hd.
  2: { split.
       - intros [e [He Ha]]. apply elem_of_process_alerts in He.
         destruct He as [a' [s [Hl He]]].
         destruct (alert_for_Some _ _ _ _ _ He) as [Heq _].
         rewrite Ha in Heq. subst a'.
         rewrite lookup_detect_opportunities, Hd in Hl. done.
       - intros [d [r [Hd' _]]]. done. }
  assert (detect_opportunities market_data !! a = Some (signal_of d)) as Hl.
  { by rewrite lookup_detect_opportunities, Hd. }
  unfold alerted. rewrite (alerted_iff _ _ _ _ _ Hl). fold avg.
  destruct (signal_of_cases d)
    as [[Hs ->]|[[Hr ->]|[[r [Hr [Hlt ->]]]|[[r [Hr [Hlt ->]]]|
        [r [Hr [Hlt ->]]]]]]].
  - rewrite should_alert_no_signal by auto. split; [done|].
    intros [d' [r [Hd' [Hr _]]]]. simplify_eq.
    exfalso. by apply (short_history_no_rsi d' (Some r)).
  - rewrite should_alert_no_signal by auto. split; [done|].
    intros [d' [r [Hd' [Hr' _]]]]. simplify_eq.
    pose proof (last_rsi_functional _ _ _ Hr Hr'). done.
  - rewrite should_alert_overbought, Qlt_bool_iff. split.
    + intros Havg. exists d, r. split; [done|]. split; [done|]. by right.
    + intros [d' [r' [Hd' [Hr' Hcase]]]]. simplify_eq.
      assert (r' = r) as ->
        by (pose proof (last_rsi_functional _ _ _ Hr Hr'); congruence).
      destruct Hcase as [[H30 _]|[_ Havg]]; [lra|done].
  - rewrite should_alert_oversold, Qlt_bool_iff. split.
    + intros Havg. exists d, r. split; [done|]. split; [done|]. by left.
    + intros [d' [r' [Hd' [Hr' Hcase]]]]. simplify_eq.
      assert (r' = r) as ->
        by (pose proof (last_rsi_functional _ _ _ Hr Hr'); congruence).
      destruct Hcase as [[_ Havg]|[H70 _]]; [done|lra].
  - rewrite should_alert_no_signal by auto. split; [done|].
    intros [d' [r' [Hd' [Hr' Hcase]]]]. simplify_eq.
    assert (r' = r) as ->
        by (pose proof (last_rsi_functional _ _ _ Hr Hr'); congruence).
    destruct Hcase as [[H30 _]|[H70 _]]; lra.
Qed.


Lemma NoDup_omap_keys {A B} (g : string * A → option B) (key : B → string)
    (l : list (string * A)) :
  (∀ x y, g x = Some y → key y = x.1) →
  NoDup l.*1 → NoDup (key <$> omap g l).
Proof.
  intros Hkey. induction l as [|x l IH]; [done|].
  csimpl. intros [Hx Hl]%NoDup_cons.
  destruct (g x) as [y|] eqn:E; csimpl; [|by apply IH].
  apply NoDup_cons. split; [|by apply IH].
  rewrite (Hkey _ _ E). intros Hin. apply Hx.
  apply list_elem_of_fmap in Hin as [y' [Hy' Hin]].
  apply list_elem_of_omap in Hin as [x' [Hx' E']].
  apply list_elem_of_fmap. exists x'. split; [|done].
  by rewrite Hy', (Hkey _ _ E').
Qed.

Lemma length_omap_le {A B} (g : A → option B) (l : list A) :
  (length (omap g l) <= length l)%nat.
Proof.
  induction l as [|x l IH]; [done|]. csimpl.
  destruct (g x); simpl; lia.
Qed.

(** X9.  One run of [process_alerts] composes at most one email per
    asset, never more emails than there are opportunities, and each email
    names an asset of [opportunities] together with its signal. *)
Theorem one_alert_per_asset (opportunities : gmap string string)
    (asset_sentiments : gmap string sentiment) :
  let alerts :=
    process_alerts fetch_company_profile opportunities asset_sentiments in
  NoDup ((λ e, asset (body e)) <$> alerts) ∧
  (length alerts <= size opportunities)%nat ∧
  ∀ e, e ∈ alerts →
       opportunities !! asset (body e) = Some (signal (body e)).
Proof.
  intros alerts. subst alerts. split; [|split].
  - unfold process_alerts. apply NoDup_omap_keys.
    + intros [a s] e He. by destruct (alert_for_Some _ _ _ _ _ He).
    + apply NoDup_fst_map_to_list.
  - unfold process_alerts. rewrite <- length_map_to_list.
    apply length_omap_le.
  - intros e He. apply elem_of_process_alerts in He.
    destruct He as [a [s [Ha He]]].
    destruct (alert_for_Some _ _ _ _ _ He) as [-> _].
    unfold alert_for in He. destruct (negb _); [done|].
    by injection He as <-.
Qed.

(** What [alert_for] writes into an email. *)
Lemma alert_for_body sents a s e :
  alert_for fetch_company_profile sents a s = Some e →
  let avg := avg_compound (sentiment_info sents a) in
  should_alert s avg = true ∧
  asset (body e) = a ∧ signal (body e) = s ∧
  body_avg_compound (body e) = avg ∧
  body_news_count (body e) = count (sentiment_info sents a) ∧
  action (body e) = (if is_substring "Oversold" s then "Buy" else "Sell") ∧
  action_color (body e)
  = (if is_substring "Oversold" s then "green" else "red") ∧
  sentiment_label (body e)
  = (if Qlt_bool 0 avg then "Positive"
     else if Qlt_bool avg 0 then "Negative" else "Neutral") ∧
  sentiment_color (body e)
  = (if Qlt_bool 0 avg then "green"
     else if Qlt_bool avg 0 then "red" else "gray") ∧
  subject e
  = "Trading Alert: " ++ action (body e) ++ " Opportunity for " ++ a.
Proof.
  unfold alert_for.
  destruct (should_alert s (avg_compound (sentiment_info sents a))); simpl;
    [|done].
  intros [= <-]. simpl. done.
Qed.

Lemma alert_email_facts (opportunities : gmap string string)
    (asset_sentiments : gmap string sentiment) e :
  e ∈ process_alerts fetch_company_profile opportunities asset_sentiments →
  let b := body e in
  body_avg_compound b
  = avg_compound (sentiment_info asset_sentiments (asset b)) ∧
  opportunities !! asset b = Some (signal b) ∧
  (((0.5 < body_avg_compound b)%Q ∧
    sentiment_label b = "Positive" ∧ sentiment_color b = "green") ∨
   ((body_avg_compound b < -0.5)%Q ∧
    sentiment_label b = "Negative" ∧ sentiment_color b = "red")) ∧
  (signal b ∈ signal_labels →
   (signal b = "Momentum (Oversold)" ∧ action b = "Buy" ∧
    action_color b = "green" ∧ sentiment_label b = "Positive") ∨
   (signal b = "Momentum (Overbought)" ∧ action b = "Sell" ∧
    action_color b = "red" ∧ sentiment_label b = "Negative")).
Proof.
  intros He b. subst b. apply elem_of_process_alerts in He.
  destruct He as [a [s [Ha He]]].
  destruct (alert_for_body _ _ _ _ He)
    as (Hrule & Hasset & Hsig & Havg & _ & Hact & Hcol & Hlab & Hscol & Hsub).
  rewrite Hasset, Hsig, Havg, Hlab, Hscol, Hact, Hcol.
  set (avg := avg_compound (sentiment_info asset_sentiments a)) in *.
  split; [done|]. split; [done|].
  assert ((0.5 < avg)%Q → Qlt_bool 0 avg = true) as Hpos.
  { intros H. apply Qlt_bool_iff. lra. }
  assert ((avg < -0.5)%Q →
          Qlt_bool 0 avg = false ∧ Qlt_bool avg 0 = true) as Hneg.
  { intros H. split; [apply Qlt_bool_false_iff | apply Qlt_bool_iff]; lra. }
  split.
  - apply should_alert_spec in Hrule as [[_ H]|[_ H]].
    + left. by rewrite (Hpos H).
    + right. destruct (Hneg H) as [-> ->]. done.
  - unfold signal_labels. rewrite !elem_of_cons, elem_of_nil.
    intros [->|[->|[->|[->|[->|[]]]]]].
    + right. rewrite should_alert_overbought, Qlt_bool_iff in Hrule.
      destruct (Hneg Hrule) as [-> ->].
      by replace (is_substring "Oversold" "Momentum (Overbought)")
        with false by reflexivity.
    + left. rewrite should_alert_oversold, Qlt_bool_iff in Hrule.
      rewrite (Hpos Hrule).
      by replace (is_substring "Oversold" "Momentum (Oversold)")
        with true by reflexivity.
    + by rewrite should_alert_no_signal in Hrule by auto.
    + by rewrite should_alert_no_signal in Hrule by auto.
    + by rewrite should_alert_no_signal in Hrule by auto.
Qed.

Lemma subject_of_alert (opportunities : gmap string string)
    (asset_sentiments : gmap string sentiment) e :
  e ∈ process_alerts fetch_company_profile opportunities asset_sentiments →
  subject e
  = "Trading Alert: " ++ action (body e) ++ " Opportunity for "
    ++ asset (body e).
Proof.
  intros He. apply elem_of_process_alerts in He.
  destruct He as [a [s [Ha He]]].
  destruct (alert_for_body _ _ _ _ He)
    as (_ & Hasset & _ & _ & _ & _ & _ & _ & _ & Hsub).
  by rewrite Hsub, Hasset.
Qed.

Lemma signal_of_in_labels d : signal_of d ∈ signal_labels.
Proof.
  unfold signal_labels.
  destruct (signal_of_cases d)
    as [[_ ->]|[[_ ->]|[[r [_ [_ ->]]]|[[r [_ [_ ->]]]|[r [_ [_ ->]]]]]]];
    set_solver.
Qed.

Lemma labels_of_detector (market_data : gmap string market_record) a l :
  detect_opportunities market_data !! a = Some l → l ∈ signal_labels.
Proof.
  rewrite lookup_detect_opportunities. intros [d [_ ->]]%fmap_Some.
  apply signal_of_in_labels.
Qed.

(** X10.  An email never says "Neutral": its sentiment line is "Positive"
    in green with an average above 0.5, or "Negative" in red with an
    average below -0.5.  For the labels of the detector the action agrees
    with it: "Buy" in green is sent for "Momentum (Oversold)" with positive
    sentiment, "Sell" in red for "Momentum (Overbought)" with negative
    sentiment. *)
Theorem alert_email_is_consistent (opportunities : gmap string string)
    (asset_sentiments : gmap string sentiment) e :
  e ∈ process_alerts fetch_company_profile opportunities asset_sentiments →
  let b := body e in
  body_avg_compound b
  = avg_compound (sentiment_info asset_sentiments (asset b)) ∧
  subject e = "Trading Alert: " ++ action b ++ " Opportunity for " ++ asset b ∧
  (((0.5 < body_avg_compound b)%Q ∧
    sentiment_label b = "Positive" ∧ sentiment_color b = "green") ∨
   ((body_avg_compound b < -0.5)%Q ∧
    sentiment_label b = "Negative" ∧ sentiment_color b = "red")) ∧
  (signal b ∈ signal_labels →
   (signal b = "Momentum (Oversold)" ∧ action b = "Buy" ∧
    action_color b = "green" ∧ sentiment_label b = "Positive") ∨
   (signal b = "Momentum (Overbought)" ∧ action b = "Sell" ∧
    action_color b = "red" ∧ sentiment_label b = "Negative")).
Proof.
  intros He b. subst b.
  destruct (alert_email_facts _ _ _ He) as (Havg & _ & Hsent & Hlabels).
  split; [done|]. split; [by apply subject_of_alert with opportunities
                                                        asset_sentiments|].
  by split.
Qed.

(** X11.  The dashboard and the email agree on every alert for a label of
    the detector: the signal line has the colour and the action of the
    email, and the mood is "positive" in green where the email says
    "Positive", "negative" in red where it says "Negative". *)
Theorem dashboard_agrees_with_email
    (market_data : gmap string market_record)
    (asset_sentiments : gmap string sentiment) e :
  e ∈ process_alerts fetch_company_profile
        (detect_opportunities market_data) asset_sentiments →
  let b := body e in
  signal_card (detect_opportunities market_data) (asset b)
  = (action_color b, action b ++ " - " ++ signal b) ∧
  ((mood_card asset_sentiments (asset b) = (":green", "positive") ∧
    sentiment_label b = "Positive") ∨
   (mood_card asset_sentiments (asset b) = (":red", "negative") ∧
    sentiment_label b = "Negative")).
Proof.
  intros He b. subst b.
  destruct (alert_email_facts _ _ _ He) as (Havg & Hentry & Hsent & Hlabels).
  assert (signal (body e) ∈ signal_labels) as Hin.
  { by apply (labels_of_detector market_data _ _ Hentry). }
  split.
  - unfold signal_card. rewrite Hentry. simpl.
    destruct (Hlabels Hin) as [(-> & -> & -> & _)|(-> & -> & -> & _)].
    + replace (is_substring "Overbought" "Momentum (Oversold)") with false
        by reflexivity.
      by replace (is_substring "Oversold" "Momentum (Oversold)") with true
        by reflexivity.
    + by replace (is_substring "Overbought" "Momentum (Overbought)") with true
        by reflexivity.
  - unfold mood_card, classify_sentiment. rewrite <- Havg.
    destruct Hsent as [(H & -> & _)|(H & -> & _)].
    + left. replace (Qlt_bool 0.05 (body_avg_compound (body e))) with true
        by (symmetry; apply Qlt_bool_iff; lra).
      done.
    + right. replace (Qlt_bool 0.05 (body_avg_compound (body e))) with false
        by (symmetry; apply Qlt_bool_false_iff; lra).
      replace (Qlt_bool (body_avg_compound (body e)) (-0.05)) with true
        by (symmetry; apply Qlt_bool_iff; lra).
      done.
Qed.

End AlertsMore.

Lemma alert_needs_rsi_and_sentiment_witness :
  alerted demo_profile (detect_opportunities oversold_market)
          demo_sentiments "AAA".
Proof.
  apply (alert_needs_rsi_and_sentiment demo_profile oversold_market
           demo_sentiments "AAA").
  exists (with_history falling_closes), (1400 # 196)%Q.
  split; [reflexivity|]. split.
  - exists falling_closes. split; [reflexivity|]. split; [simpl; lia|].
    vm_compute. reflexivity.
  - left. split; reflexivity.
Defined.


Lemma one_alert_per_asset_witness :
  ∃ e, e ∈ process_alerts demo_profile demo_opportunities demo_sentiments ∧
       demo_opportunities !! asset (body e) = Some (signal (body e)).
Proof.
  destruct (alert_for_fires demo_profile demo_sentiments "AAA"
              "Momentum (Oversold)" eq_refl) as [e [He Ha]].
  assert (e ∈ process_alerts demo_profile demo_opportunities demo_sentiments)
    as Hin.
  { apply elem_of_process_alerts. exists "AAA", "Momentum (Oversold)".
    split; [reflexivity | exact He]. }
  exists e. split; [exact Hin|].
  exact (proj2 (proj2 (one_alert_per_asset demo_profile demo_opportunities
                         demo_sentiments)) e Hin).
Defined.

Lemma alert_email_is_consistent_witness :
  ∃ e, e ∈ process_alerts demo_profile demo_opportunities demo_sentiments ∧
       sentiment_label (body e) = "Positive" ∧ action (body e) = "Buy".
Proof.
  destruct (alert_for_fires demo_profile demo_sentiments "AAA"
              "Momentum (Oversold)" eq_refl) as [e [He Ha]].
  assert (e ∈ process_alerts demo_profile demo_opportunities demo_sentiments)
    as Hin.
  { apply elem_of_process_alerts. exists "AAA", "Momentum (Oversold)".
    split; [reflexivity | exact He]. }
  exists e. split; [exact Hin|].
  destruct (alert_email_is_consistent demo_profile demo_opportunities
              demo_sentiments e Hin) as (_ & _ & _ & Hlabels).
  assert (signal (body e) = "Momentum (Oversold)") as Hsig.
  { unfold alert_for in He. simpl in He. injection He as <-. reflexivity. }
  destruct Hlabels as [(_ & Hact & _ & Hlab)|(Hs & _)].
  - rewrite Hsig. unfold signal_labels. apply list_elem_of_In. simpl. tauto.
  - split; [exact Hlab | exact Hact].
  - rewrite Hsig in Hs. discriminate Hs.
Defined.

Lemma dashboard_agrees_with_email_witness :
  ∃ e, e ∈ process_alerts demo_profile (detect_opportunities oversold_market)
               demo_sentiments ∧
       signal_card (detect_opportunities oversold_market) (asset (body e))
       = (action_color (body e), action (body e) ++ " - " ++ signal (body e)).
Proof.
  destruct (alert_for_fires demo_profile demo_sentiments "AAA"
              "Momentum (Oversold)" eq_refl) as [e [He Ha]].
  assert (e ∈ process_alerts demo_profile
                (detect_opportunities oversold_market) demo_sentiments)
    as Hin.
  { apply elem_of_process_alerts. exists "AAA", "Momentum (Oversold)".
    split; [vm_compute; reflexivity | exact He]. }
  exists e. split; [exact Hin|].
  exact (proj1 (dashboard_agrees_with_email demo_profile oversold_market
                  demo_sentiments e Hin)).
Defined.

(** ** asset_finder.py and app.py *)

Section FinderMore.
Context (yf : string → option yf_ticker) (annualized_std : list Q → Q).

Lemma slice_to_prefix {B} (n : Z) (l : list B) : slice_to n l `prefix_of` l.
Proof. unfold slice_to. destruct (0 <=? n)%Z; apply prefix_take. Qed.

(** X12.  [fetch_biggest_losers] never returns an empty list: when the
    request fails or yields no symbol it answers its ten fallback tickers,
    otherwise the first symbols of the answer, at most [max_candidates] of
    them. *)
Theorem biggest_losers_never_empty losers max_candidates :
  let tickers := fetch_biggest_losers losers max_candidates in
  tickers ≠ [] ∧
  (losers = None → tickers = FALLBACK_LOSERS) ∧
  (∀ data, losers = Some data →
     (slice_to max_candidates data = [] → tickers = FALLBACK_LOSERS) ∧
     (slice_to max_candidates data ≠ [] →
        tickers = slice_to max_candidates data ∧
        tickers `prefix_of` data ∧
        ((0 <= max_candidates)%Z →
         (Z.of_nat (length tickers) <= max_candidates)%Z))).
Proof.
  intros tickers. subst tickers. unfold fetch_biggest_losers.
  split; [|split].
  - destruct losers as [data|]; [|done].
    by destruct (slice_to max_candidates data) eqn:E.
  - by intros ->.
  - intros data ->. split.
    + by intros ->.
    + intros Hne. destruct (slice_to max_candidates data) as [|t ts] eqn:E;
        [done|].
      split; [done|]. rewrite <- E. split; [apply slice_to_prefix|].
      intros Hmax. unfold slice_to.
      replace (0 <=? max_candidates)%Z with true
        by (symmetry; by apply Z.leb_le).
      rewrite length_take. lia.
Qed.

Lemma biggest_losers_never_empty_witness :
  fetch_biggest_losers (Some []) 10 = FALLBACK_LOSERS.
Proof.
  destruct (biggest_losers_never_empty (Some []) 10) as (_ & _ & H).
  apply (H [] eq_refl). reflexivity.
Defined.

(** X13.  [fetch_asset_data] answers a record only for a ticker whose
    request succeeded with a history that is not empty and a market cap
    other than zero; the record carries the ticker asked for, and a
    missing forward P/E becomes infinity, which scores 0.  A failed
    request, an empty history and a missing or zero market cap all give
    nothing. *)
Theorem fetch_asset_data_usable t :
  (∀ d, fetch_asset_data yf annualized_std t = Some d →
     ticker d = t ∧ ¬ (market_cap d == 0)%Q ∧
     ∃ asset, yf t = Some asset ∧ history asset ≠ [] ∧
              info_marketCap asset = Some (market_cap d) ∧
              pe_ratio d = default PosInf (info_forwardPE asset) ∧
              (info_forwardPE asset = None → pe_score (pe_ratio d) = 0%Q) ∧
              (length (history asset) = 1%nat → volatility d = 0%Q)) ∧
  (fetch_asset_data yf annualized_std t = None ↔
   yf t = None ∨
   ∃ asset, yf t = Some asset ∧
            (history asset = [] ∨ info_marketCap asset = None ∨
             ∃ m, info_marketCap asset = Some m ∧ (m == 0)%Q)).
Proof.
  unfold fetch_asset_data. split.
  - intros d Hd. destruct (yf t) as [asset|] eqn:Hy; [|done].
    destruct (history asset) as [|h hs] eqn:Hh; [done|].
    destruct (info_marketCap asset) as [m|] eqn:Hm; simpl in Hd.
    + destruct (Qeq_bool m 0) eqn:E; [done|]. injection Hd as <-. simpl.
      split; [done|]. split; [by apply Qeq_bool_neq|].
      exists asset. rewrite Hh, Hm. repeat split; try done.
      * by intros ->.
      * intros Hlen. unfold calculate_volatility. simpl in *.
        by replace (S (length hs) <? 2)%nat with true
          by (symmetry; apply Nat.ltb_lt; lia).
    + done.
  - destruct (yf t) as [asset|] eqn:Hy.
    2: { split; [by left | done]. }
    destruct (history asset) as [|h hs] eqn:Hh.
    { split; [|done]. intros _. right. exists asset. by split; [|left]. }
    destruct (info_marketCap asset) as [m|] eqn:Hm; simpl.
    + destruct (Qeq_bool m 0) eqn:E.
      * split; [|done]. intros _. right. exists asset. split; [done|].
        right. right. exists m. split; [done|]. by apply Qeq_bool_iff.
      * split; [done|]. intros [?|[asset' [? Hcase]]]; [done|].
        simplify_eq. exfalso.
        destruct Hcase as [?|[?|[m' [? Hm']]]]; [congruence|congruence|].
        assert (m' = m) as -> by congruence.
        apply Qeq_bool_neq in E. done.
    + split; [|done]. intros _. right. exists asset. split; [done|].
      right. by left.
Qed.


Lemma length_scored_candidates self sents :
  (length (scored_candidates (fetch_asset_data yf annualized_std) self sents)
   <= length (stock_candidates self))%nat.
Proof. unfold scored_candidates. apply length_omap_le. Qed.

Lemma scored_candidates_nil self sents :
  scored_candidates (fetch_asset_data yf annualized_std) self sents = [] ↔
  ∀ t, t ∈ stock_candidates self → fetch_asset_data yf annualized_std t = None.
Proof.
  unfold scored_candidates.
  induction (stock_candidates self) as [|c cs IH].
  - split; [|done]. intros _ t Ht. by apply elem_of_nil in Ht.
  - cbn [omap list_omap].
    destruct (fetch_asset_data yf annualized_std c) as [d|] eqn:E; simpl.
    + split; [done|]. intros H. specialize (H c ltac:(by left)).
      congruence.
    + rewrite IH. split.
      * intros H t [->|Ht]%elem_of_cons; [done|by apply H].
      * intros H t Ht. apply H. by right.
Qed.

Lemma ranked_candidates_Permutation self sents :
  ranked_candidates (fetch_asset_data yf annualized_std) self sents
  ≡ₚ scored_candidates (fetch_asset_data yf annualized_std) self sents.
Proof. apply py_sort_Permutation. Qed.

Lemma selected_assets_facts key losers t m self
    (asset_sentiments : gmap string sentiment) :
  AssetFinder_init key losers t m = Some self →
  let selected :=
    find_interesting_assets (fetch_asset_data yf annualized_std) self
      asset_sentiments in
  (Z.of_nat (length selected) <= target_assets self <= 10)%Z ∧
  (length selected <= length (stock_candidates self))%nat ∧
  (∀ c, c ∈ selected →
        c ∈ stock_candidates self ∧
        is_Some (fetch_asset_data yf annualized_std c)) ∧
  (selected = [] ↔
   ∀ c, c ∈ stock_candidates self →
        fetch_asset_data yf annualized_std c = None).
Proof.
  intros Hinit selected. subst selected.
  pose proof (target_assets_init _ _ _ _ _ Hinit) as Htarget.
  unfold find_interesting_assets. rewrite slice_to_take by lia.
  pose proof (ranked_candidates_Permutation self asset_sentiments) as Hperm.
  split; [|split; [|split]].
  - rewrite length_map, length_take. lia.
  - rewrite length_map, length_take, (Permutation_length Hperm).
    pose proof (length_scored_candidates self asset_sentiments). lia.
  - intros c Hc. rewrite map_fmap in Hc.
    apply list_elem_of_fmap in Hc as [sd [-> Hsd]].
    apply elem_of_take in Hsd as [i [Hsd _]].
    apply list_elem_of_lookup_2 in Hsd. rewrite Hperm in Hsd.
    apply elem_of_scored_candidates in Hsd as [c [d [Hc [Hd ->]]]].
    simpl. rewrite (fetch_asset_data_ticker _ _ _ _ Hd).
    split; [done|]. by exists d.
  - rewrite <- (scored_candidates_nil self asset_sentiments). split.
    + intros H. apply (f_equal length) in H.
      rewrite length_map, length_take in H. simpl in H.
      apply Permutation_length in Hperm.
      apply nil_length_inv. lia.
    + intros H. rewrite H in Hperm. apply Permutation_nil_r in Hperm.
      rewrite Hperm. by rewrite take_nil.
Qed.

(** X14.  [find_interesting_assets] returns at most [target_assets]
    tickers, so at most 10, and never more than there are candidates;
    every ticker returned is a candidate for which [fetch_asset_data] gave
    a record; the result is empty exactly when no candidate has data. *)
Theorem selected_assets_are_candidates_with_data key losers t m self
    (asset_sentiments : gmap string sentiment) :
  AssetFinder_init key losers t m = Some self →
  let selected :=
    find_interesting_assets (fetch_asset_data yf annualized_std) self
      asset_sentiments in
  (Z.of_nat (length selected) <= target_assets self <= 10)%Z ∧
  (length selected <= length (stock_candidates self))%nat ∧
  (∀ c, c ∈ selected →
        c ∈ stock_candidates self ∧
        is_Some (fetch_asset_data yf annualized_std c)) ∧
  (selected = [] ↔
   ∀ c, c ∈ stock_candidates self →
        fetch_asset_data yf annualized_std c = None).
Proof.
  intros Hinit. by apply selected_assets_facts with key losers t m.
Qed.

(** X15.  Step 4 of [main] always goes on with at least one asset and at
    most [target_assets]: the fallback tickers when no candidate has
    data, the ranked candidates otherwise. *)
Theorem main_never_without_assets key losers t m asset_finder
    (asset_sentiments : gmap string sentiment) :
  AssetFinder_init key losers t m = Some asset_finder →
  let ASSETS :=
    main_step4 (fetch_asset_data yf annualized_std) asset_finder
      asset_sentiments in
  ASSETS ≠ [] ∧
  (Z.of_nat (length ASSETS) <= target_assets asset_finder <= 10)%Z ∧
  ((∀ c, c ∈ stock_candidates asset_finder →
         fetch_asset_data yf annualized_std c = None) →
   ASSETS = ["DZSI"; "BBWI"; "ETSY"; "SENS"; "NGVC"]) ∧
  ((∃ c, c ∈ stock_candidates asset_finder ∧
         is_Some (fetch_asset_data yf annualized_std c)) →
   ASSETS = find_interesting_assets (fetch_asset_data yf annualized_std)
              asset_finder asset_sentiments).
Proof.
  intros Hinit ASSETS. subst ASSETS.
  pose proof (target_assets_init _ _ _ _ _ Hinit) as Htarget.
  destruct (selected_assets_facts _ _ _ _ _ asset_sentiments Hinit)
    as (Hlen & _ & _ & Hnil).
  unfold main_step4, main_assets.
  destruct (find_interesting_assets (fetch_asset_data yf annualized_std)
              asset_finder asset_sentiments)
    as [|a l] eqn:E.
  - split; [done|]. split; [simpl; lia|]. split; [done|].
    intros [c [Hc [d Hd]]]. rewrite (proj1 Hnil eq_refl c Hc) in Hd. done.
  - split; [done|]. split; [done|]. split; [|done].
    intros Hnone. by apply Hnil in Hnone.
Qed.


End FinderMore.

Lemma fetch_asset_data_usable_witness :
  ticker {| ticker := "AAA"; market_cap := 1000000; volatility := 0.5;
            pe_ratio := Finite 20 |} = "AAA".
Proof.
  apply (proj1 (fetch_asset_data_usable demo_yf demo_std "AAA")).
  reflexivity.
Defined.

Lemma selected_assets_are_candidates_with_data_witness :
  "AAA" ∈ stock_candidates demo_finder ∧
  is_Some (fetch_asset_data demo_yf demo_std "AAA").
Proof.
  destruct (selected_assets_are_candidates_with_data demo_yf demo_std
              (Some "key") (Some ["FFF"; "BBB"; "CCC"; "EEE"; "DDD"; "AAA"])
              3 10 demo_finder demo_sentiments eq_refl) as (_ & _ & H & _).
  apply H. vm_compute.
  apply list_elem_of_In. simpl. tauto.
Defined.

Lemma main_never_without_assets_witness :
  main_step4 (fetch_asset_data demo_yf demo_std) demo_finder demo_sentiments
  ≠ [].
Proof.
  apply (main_never_without_assets demo_yf demo_std (Some "key")
           (Some ["FFF"; "BBB"; "CCC"; "EEE"; "DDD"; "AAA"]) 3 10
           demo_finder demo_sentiments).
  reflexivity.
Defined.




(** ** sentiment_analyzer.py *)

Section SentimentMore.
Local Open Scope list_scope.
Context (polarity_scores : string → polarity).
Context (news_data : gmap string news_item).

Lemma aggregate_count compounds :
  count (aggregate compounds) = Z.of_nat (length compounds).
Proof. by destruct compounds. Qed.

Lemma aggregate_count_zero compounds :
  count (aggregate compounds) = 0%Z → aggregate compounds = no_sentiment.
Proof. destruct compounds; [done|]. simpl. lia. Qed.

(** X18.  The aggregation loop never raises, so the [except] branch is
    not taken; the result has a record for every asset of the list and
    for nothing else; a count is never negative, and it is 0 only in the
    neutral record [{avg_compound: 0.0, count: 0}]. *)
Theorem every_asset_gets_a_record (assets : list string) :
  is_Some (for_each (relate_headline news_data assets)
             (map_to_list (analyze_sentiment polarity_scores news_data))
             (list_to_map ((λ asset, (asset, [])) <$> assets))) ∧
  (∀ a, is_Some (aggregate_sentiment_by_asset polarity_scores news_data
                   assets !! a) ↔ a ∈ assets) ∧
  (∀ a r, aggregate_sentiment_by_asset polarity_scores news_data assets !! a
          = Some r →
          sentiment_info (aggregate_sentiment_by_asset polarity_scores
                            news_data assets) a = r ∧
          (0 <= count r)%Z ∧
          (count r = 0%Z → r = {| avg_compound := 0; count := 0 |})).
Proof.
  split; [|split].
  - destruct (for_each_relate_spec news_data assets
                (map_to_list (analyze_sentiment polarity_scores news_data))
                (list_to_map ((λ asset, (asset, [])) <$> assets)))
      as [m' [-> _]]; [|intros x Hx|done].
    + intros item. apply analyzed_items_known.
    + rewrite lookup_initial_lists. by rewrite decide_True.
  - intros a. rewrite lookup_aggregate_sentiment.
    destruct (decide (a ∈ assets)); split; try done; by intros [? ?].
  - intros a r Hr. split; [unfold sentiment_info; by rewrite Hr|].
    rewrite lookup_aggregate_sentiment in Hr.
    destruct (decide (a ∈ assets)); [|done]. injection Hr as <-.
    split; [rewrite aggregate_count; lia | apply aggregate_count_zero].
Qed.





Lemma count_aggregate_sentiment (assets : list string) a :
  a ∈ assets →
  count (sentiment_info
           (aggregate_sentiment_by_asset polarity_scores news_data assets) a)
  = Z.of_nat (count_occ string_dec assets a
              * length (matched_headlines polarity_scores news_data a)).
Proof.
  intros Ha. unfold sentiment_info.
  rewrite lookup_aggregate_sentiment, decide_True by done. simpl.
  rewrite appended_matched.
  apply (aggregate_replicated _
           (matched_headlines polarity_scores news_data a)).
  by apply count_occ_pos.
Qed.

Lemma string_app_assoc (s t u : string) :
  (s ++ (t ++ u) = (s ++ t) ++ u)%string.
Proof.
  induction s as [|c s IH]; [done|].
  rewrite !append_cons. by rewrite IH.
Qed.

Lemma contains_trans (h m n : string) :
  contains h m → contains m n → contains h n.
Proof.
  intros [p [q ->]] [p' [q' ->]]. exists (p ++ p')%string, (q' ++ q)%string.
  by rewrite <- !string_app_assoc.
Qed.

Lemma filter_length_mono {A} (f g : A → bool) (l : list A) :
  (∀ x, f x = true → g x = true) →
  (length (List.filter f l) <= length (List.filter g l))%nat.
Proof.
  intros Hfg. induction l as [|x l IH]; simpl; [lia|].
  destruct (f x) eqn:Ef.
  - rewrite (Hfg x Ef). simpl. lia.
  - destruct (g x); simpl; lia.
Qed.

Lemma matches_b_inside a b title :
  contains (lower b) (lower a) →
  matches_b news_data b title = true → matches_b news_data a title = true.
Proof.
  intros Hab. unfold matches_b.
  rewrite !orb_true_iff, !is_substring_spec. intros [H|H].
  - left. by apply (contains_trans _ (lower b)).
  - right. destruct (news_data !! title) as [info|]; simpl in *; [|done].
    rewrite is_substring_spec in *. by apply (contains_trans _ (lower b)).
Qed.

(** X20.  Matching is by substring, without regard to case: when the
    lower-cased ticker [a] occurs inside the lower-cased ticker [b], every
    headline counted for [b] is counted for [a] too, so with each ticker
    listed once the count of [a] is at least the count of [b]. *)
Theorem ticker_inside_ticker (assets : list string) a b :
  contains (lower b) (lower a) →
  (∀ item, item ∈ matched_headlines polarity_scores news_data b →
           item ∈ matched_headlines polarity_scores news_data a) ∧
  (NoDup assets → a ∈ assets → b ∈ assets →
   (count (sentiment_info
             (aggregate_sentiment_by_asset polarity_scores news_data assets) b)
    <= count (sentiment_info
                (aggregate_sentiment_by_asset polarity_scores news_data
                   assets) a))%Z).
Proof.
  intros Hab. split.
  - intros item. unfold matched_headlines.
    rewrite !list_elem_of_In, !filter_In. intros [Hin Hm].
    split; [done|]. by apply (matches_b_inside a b).
  - intros Hnd Ha Hb. rewrite !count_aggregate_sentiment by done.
    rewrite !count_occ_NoDup by done. rewrite !Nat.mul_1_l.
    apply inj_le. unfold matched_headlines. apply filter_length_mono.
    intros item. by apply (matches_b_inside a b).
Qed.

End SentimentMore.

Lemma every_asset_gets_a_record_witness :
  (0 <= count (aggregate [0.8%Q]))%Z.
Proof.
  apply (proj2 (proj2 (every_asset_gets_a_record strong_polarity abc_news
                         ["ABC"])) "ABC" (aggregate [0.8%Q])).
  vm_compute. reflexivity.
Defined.


Lemma ticker_inside_ticker_witness :
  (count (sentiment_info
            (aggregate_sentiment_by_asset strong_polarity two_news
               ["OB"; "OBX"]) "OBX")
   <= count (sentiment_info
               (aggregate_sentiment_by_asset strong_polarity two_news
                  ["OB"; "OBX"]) "OB"))%Z.
Proof.
  apply (proj2 (ticker_inside_ticker strong_polarity two_news ["OB"; "OBX"]
                  "OB" "OBX" ltac:(by exists EmptyString, "x"))).
  - apply NoDup_ListNoDup. repeat constructor; simpl; intuition discriminate.
  - apply list_elem_of_In. simpl. tauto.
  - apply list_elem_of_In. simpl. tauto.
Defined.

(** ** dashboard.py *)

Section DashboardMore.
Local Open Scope list_scope.
Context (polarity_scores : string → polarity).
Context (news_data : gmap string news_item).

Lemma filter_Permutation {A} (f : A → bool) (l k : list A) :
  l ≡ₚ k → List.filter f l ≡ₚ List.filter f k.
Proof.
  induction 1 as [|x l k _ IH|x y l|l k m _ IH1 _ IH2]; simpl.
  - done.
  - destruct (f x); [by constructor|done].
  - destruct (f x), (f y); try done. apply perm_swap.
  - by etrans.
Qed.

(** The scored headlines are the news items, each with its scores. *)
Lemma analyzed_Permutation :
  map_to_list (analyze_sentiment polarity_scores news_data) ≡ₚ
  (λ item, (item.1,
            polarity_scores (item.1 ++ " " ++ description item.2)%string))
    <$> map_to_list news_data.
Proof.
  apply NoDup_Permutation.
  - apply NoDup_map_to_list.
  - apply (NoDup_fmap_1 fst). rewrite <- list_fmap_compose.
    apply (NoDup_fst_map_to_list news_data).
  - intros [t p]. rewrite elem_of_map_to_list, lookup_analyze_sentiment.
    rewrite list_elem_of_fmap. split.
    + intros [info [E ->]]%fmap_Some. exists (t, info).
      split; [done|]. by apply elem_of_map_to_list.
    + intros [[t' info] [[= -> ->] Hin]]. apply elem_of_map_to_list in Hin.
      simpl. by rewrite Hin.
Qed.

Lemma omap_filter_fmap {A B C} (h : A → option C) (g : A → B)
    (P : B → bool) (f : B → C) (l : list A) :
  Forall (λ x, h x = if P (g x) then Some (f (g x)) else None) l →
  omap h l = f <$> List.filter P (g <$> l).
Proof.
  induction 1 as [|x l Hx _ IH]; [done|]. csimpl. rewrite Hx.
  destruct (P (g x)); csimpl; by rewrite IH.
Qed.

Lemma shown_lines_omap (a : string) (l : list (string * news_item)) :
  Forall (λ item, news_data !! item.1 = Some item.2) l →
  omap (λ item,
          if is_substring (lower a) (lower item.1)
             || is_substring (lower a) (lower (description item.2))
          then
            let score :=
              from_option compound 0%Q
                (analyze_sentiment polarity_scores news_data !! item.1) in
            Some (if Qlt_bool 0.05 score then ":green"
                  else if Qlt_bool score (-0.05) then ":red"
                  else ":gray", item.1, score)
          else None) l
  = shown_line <$>
      List.filter (λ item, matches_b news_data a item.1)
        ((λ item, (item.1,
                   polarity_scores
                     (item.1 ++ " " ++ description item.2)%string)) <$> l).
Proof.
  intros Hl. apply omap_filter_fmap.
  eapply Forall_impl; [exact Hl|]. intros [t info] Hx. simpl in *.
  unfold matches_b, shown_line. rewrite lookup_analyze_sentiment, Hx. simpl.
  by destruct (is_substring (lower a) (lower t)
               || is_substring (lower a) (lower (description info))).
Qed.

Lemma news_lines_Permutation (assets : list string) a :
  a ∈ assets →
  news_lines news_data (analyze_sentiment polarity_scores news_data)
    (aggregate_sentiment_by_asset polarity_scores news_data assets) a
  ≡ₚ shown_line <$> matched_headlines polarity_scores news_data a.
Proof.
  intros Ha. unfold news_lines.
  rewrite (count_aggregate_sentiment polarity_scores news_data assets a Ha).
  destruct (0 <? _)%Z eqn:E.
  - rewrite shown_lines_omap.
    + apply fmap_Permutation. unfold matched_headlines.
      apply filter_Permutation. symmetry. apply analyzed_Permutation.
    + apply Forall_forall. intros [t info] Hin.
      by apply elem_of_map_to_list in Hin.
  - apply Z.ltb_ge in E. pose proof (count_occ_pos assets a Ha).
    destruct (matched_headlines polarity_scores news_data a); [done|].
    simpl in E. lia.
Qed.

(** X21.  The dashboard lists under "Latest News" the headlines that were
    counted for the asset, each once and with the compound score that
    went into the average.  The number shown as "News Items" is the number
    of these lines times the number of occurrences of the ticker in the
    list of assets: the two agree when every ticker is listed once. *)
Theorem news_list_agrees_with_count (assets : list string) a :
  a ∈ assets →
  let sentiment_scores := analyze_sentiment polarity_scores news_data in
  let asset_sentiments :=
    aggregate_sentiment_by_asset polarity_scores news_data assets in
  let lines := news_lines news_data sentiment_scores asset_sentiments a in
  lines ≡ₚ shown_line <$> matched_headlines polarity_scores news_data a ∧
  NoDup ((λ line, line.1.2) <$> lines) ∧
  count (sentiment_info asset_sentiments a)
  = Z.of_nat (count_occ string_dec assets a * length lines) ∧
  (NoDup assets →
   count (sentiment_info asset_sentiments a) = Z.of_nat (length lines)).
Proof.
  intros Ha sentiment_scores asset_sentiments lines.
  pose proof (news_lines_Permutation assets a Ha) as Hp.
  fold sentiment_scores asset_sentiments lines in Hp.
  assert (length lines
          = length (matched_headlines polarity_scores news_data a)) as Hlen.
  { by rewrite Hp, length_fmap. }
  split; [done|]. split.
  { rewrite Hp, <- list_fmap_compose.
    apply (NoDup_matched_headlines polarity_scores news_data a). }
  subst asset_sentiments.
  rewrite count_aggregate_sentiment by done. rewrite Hlen.
  split; [done|]. intros Hnd. rewrite count_occ_NoDup by done. f_equal. lia.
Qed.

End DashboardMore.

Lemma news_list_agrees_with_count_witness :
  count (sentiment_info
           (aggregate_sentiment_by_asset strong_polarity abc_news ["ABC"])
           "ABC")
  = Z.of_nat (length (news_lines abc_news
                        (analyze_sentiment strong_polarity abc_news)
                        (aggregate_sentiment_by_asset strong_polarity
                           abc_news ["ABC"]) "ABC")).
Proof.
  destruct (news_list_agrees_with_count strong_polarity abc_news ["ABC"]
              "ABC") as (_ & _ & _ & H).
  - apply list_elem_of_In. simpl. tauto.
  - apply H. apply NoDup_ListNoDup. repeat constructor. simpl. tauto.
Defined.

Section ChartMore.
Local Open Scope list_scope.

Lemma Qmin_list_le (x : Q) (l : list Q) :
  (Qmin_list x l <= x)%Q ∧ Forall (λ y, (Qmin_list x l <= y)%Q) l.
Proof.
  revert x. induction l as [|y l IH]; intros x.
  - split; [apply Qle_refl|constructor].
  - unfold Qmin_list. cbn [foldl].
    fold (Qmin_list (if Qlt_bool y x then y else x) l).
    destruct (IH (if Qlt_bool y x then y else x)) as [H1 H2].
    destruct (Qlt_bool y x) eqn:E.
    + apply Qlt_bool_iff in E. split; [lra|]. constructor; [done|done].
    + apply Qlt_bool_false_iff in E. split; [done|].
      constructor; [lra|done].
Qed.

Lemma Qmax_list_ge (x : Q) (l : list Q) :
  (x <= Qmax_list x l)%Q ∧ Forall (λ y, (y <= Qmax_list x l)%Q) l.
Proof.
  revert x. induction l as [|y l IH]; intros x.
  - split; [apply Qle_refl|constructor].
  - unfold Qmax_list. cbn [foldl].
    fold (Qmax_list (if Qlt_bool x y then y else x) l).
    destruct (IH (if Qlt_bool x y then y else x)) as [H1 H2].
    destruct (Qlt_bool x y) eqn:E.
    + apply Qlt_bool_iff in E. split; [lra|]. constructor; [done|done].
    + apply Qlt_bool_false_iff in E. split; [done|].
      constructor; [lra|done].
Qed.

(** X22.  A chart is drawn exactly when the history is not empty.  With
    prices that are not negative, the price axis, from 5% below the lowest
    to 5% above the highest price, holds every price of the history, and
    its lower end is not above its upper end. *)
Theorem chart_shows_every_price (daily_history : list Q) :
  (daily_history ≠ [] ↔ is_Some (chart_range daily_history)) ∧
  (∀ range, chart_range daily_history = Some range →
            Forall (λ p, (0 <= p)%Q) daily_history →
            covers range daily_history ∧ (range.1 <= range.2)%Q).
Proof.
  split.
  - destruct daily_history; simpl; split; try done; eauto;
      by intros [? ?].
  - intros range Hr Hpos. destruct daily_history as [|x rest]; [done|].
    injection Hr as <-. unfold covers. cbn [fst snd].
    destruct (Qmin_list_le x rest) as [Hm1 Hm2].
    destruct (Qmax_list_ge x rest) as [HM1 HM2].
    apply Forall_cons in Hpos as [Hx Hrest].
    assert (Forall (λ p, (Qmin_list x rest * 0.95 <= p
                          <= Qmax_list x rest * 1.05)%Q) (x :: rest)) as Hall.
    { constructor.
      - lra.
      - apply Forall_forall. intros p Hp.
        pose proof (proj1 (Forall_forall _ _) Hm2 p Hp).
        pose proof (proj1 (Forall_forall _ _) HM2 p Hp).
        pose proof (proj1 (Forall_forall _ _) Hrest p Hp). simpl in *. lra. }
    split; [done|]. apply Forall_cons in Hall as [Hx' _]. lra.
Qed.

End ChartMore.

Lemma chart_shows_every_price_witness :
  covers (10 * 0.95, 12 * 1.05)%Q [10; 11; 12]%Q.
Proof.
  apply (proj2 (chart_shows_every_price [10; 11; 12]%Q)
           (10 * 0.95, 12 * 1.05)%Q).
  - reflexivity.
  - repeat constructor; vm_compute; discriminate.
Defined.

(** ** data_ingestion.py *)

Lemma try_each_invariant {A S} (P : S → Prop) (body : A → S → outcome S)
    (l : list A) (s : S) :
  P s →
  (∀ x s, x ∈ l → P s → P (state_of (body x s))) →
  P (state_of (try_each body l s)).
Proof.
  revert s. induction l as [|x l IH]; intros s Hs Hstep; [done|].
  simpl. pose proof (Hstep x s ltac:(by left) Hs) as Hx.
  destruct (body x s) as [s'|s']; simpl in *; [|done].
  apply IH; [done|]. intros y s'' Hy. apply Hstep. by right.
Qed.

Lemma try_each_app_raised {A S} (body : A → S → outcome S)
    (pre post : list A) (x : A) (s s1 s2 : S) :
  try_each body pre s = Done s1 →
  body x s1 = Raised s2 →
  try_each body (pre ++ x :: post)%list s = Raised s2.
Proof.
  revert s. induction pre as [|y pre IH]; intros s Hpre Hx; simpl in *.
  - injection Hpre as ->. by rewrite Hx.
  - destruct (body y s) as [s'|s']; [|done]. by apply IH.
Qed.

Section IngestionMore.
Import DataIngestion.
Local Open Scope list_scope.
Context (ticker_history : nat → string → string → string
                         → option (list bar)).
Context (parse : nat → string → option (list entry)).
Context (now : nat → string).

Lemma fetch_asset_kept l a st st0 :
  a ∈ l → market_kept ticker_history now l st0 st →
  market_kept ticker_history now l st0
    (state_of (fetch_asset ticker_history now a st)).
Proof.
  intros Ha (Has & Hnews & Htick & Hkeep & Hnew). unfold fetch_asset.
  destruct (ticker_history st.2 a "1d" "5m") as [intraday|] eqn:Ei;
    [|repeat split; simpl; try done; lia].
  destruct (ticker_history st.2 a "14d" "1d") as [daily|] eqn:Ed;
    [|repeat split; simpl; try done; lia].
  destruct (last intraday) as [latest|] eqn:El;
    [|repeat split; simpl; try done; lia].
  destruct daily as [|b daily]; [repeat split; simpl; try done; lia|].
  destruct (Volume latest) as [v|] eqn:Ev;
    [|repeat split; simpl; try done; lia].
  split; [done|]. split; [done|]. split; [simpl; lia|]. simpl. split.
  - intros x Hx. apply lookup_insert_is_Some.
    destruct (decide (a = x)); [by left|right; auto].
  - intros x d [[<- <-]|[Hne Hx]]%lookup_insert_Some; [|by apply Hnew].
    right. split; [done|]. exists st.2, intraday, (b :: daily).
    split; [done|]. split; [done|]. split; [done|]. split; [|done].
    split; [done|]. split; [done|]. split; [done|]. by exists latest.
Qed.

Lemma fetch_assets_kept l st :
  market_kept ticker_history now l st
    (state_of (try_each (fetch_asset ticker_history now) l st)).
Proof.
  apply (try_each_invariant (market_kept ticker_history now l st)).
  - repeat split; try done. by left.
  - intros a st' Ha. by apply fetch_asset_kept.
Qed.

Lemma fetch_assets_other l st a :
  a ∉ l →
  market_data (state_of (try_each (fetch_asset ticker_history now) l st)).1
    !! a = market_data st.1 !! a.
Proof.
  intros Ha. destruct (fetch_assets_kept l st) as (_ & _ & _ & Hkeep & Hnew).
  destruct (market_data st.1 !! a) as [d|] eqn:E.
  - destruct (Hkeep a) as [d' Hd']; [by rewrite E|]. rewrite Hd'.
    destruct (Hnew a d' Hd') as [H|[H _]]; [congruence|done].
  - destruct (market_data (state_of _).1 !! a) as [d'|] eqn:E'; [|done].
    destruct (Hnew a d' E') as [H|[H _]]; [congruence|done].
Qed.

(** X23.  [fetch_market_data] never removes an asset from the market
    data, touches neither the asset list nor the news, and leaves the
    assets outside the list as they were.  Every entry found afterwards is
    an old entry or was written by this fetch for an asset of the list:
    then its histories are the closes of the two frames answered for the
    asset, its daily history is there and not empty, and its price and
    volume are those of the last intraday row. *)
Theorem market_data_kept_or_refreshed (st : t * nat) :
  let st' := fetch_market_data ticker_history now st in
  assets st'.1 = assets st.1 ∧
  news_data st'.1 = news_data st.1 ∧
  (∀ a, is_Some (market_data st.1 !! a) → is_Some (market_data st'.1 !! a)) ∧
  (∀ a d, market_data st'.1 !! a = Some d →
          market_data st.1 !! a = Some d ∨
          (a ∈ assets st.1 ∧ refreshed ticker_history now st.2 a d)) ∧
  (∀ a, a ∉ assets st.1 → market_data st'.1 !! a = market_data st.1 !! a).
Proof.
  intros st'. subst st'. unfold fetch_market_data.
  destruct (fetch_assets_kept (assets st.1) st) as (H1 & H2 & _ & H3 & H4).
  repeat split; try done. intros a. apply fetch_assets_other.
Qed.

Lemma fetch_asset_tick a st st' :
  fetch_asset ticker_history now a st = Done st' → st'.2 = S st.2.
Proof.
  unfold fetch_asset.
  repeat (match goal with
          | |- context [match ?x with _ => _ end] => destruct x
          end; try done); by intros [= <-].
Qed.

Lemma fetch_assets_tick l st st' :
  try_each (fetch_asset ticker_history now) l st = Done st' →
  st'.2 = (st.2 + length l)%nat.
Proof.
  revert st. induction l as [|a l IH]; intros st; simpl.
  - intros [= <-]. lia.
  - destruct (fetch_asset ticker_history now a st) as [s1|s1] eqn:E; [|done].
    intros H. rewrite (IH _ H), (fetch_asset_tick _ _ _ E). lia.
Qed.

(** X24.  One failing request ends the refresh: when the request for an
    asset raises, the object stays as the assets before it left it, and
    every asset that does not come before it keeps its old entry, whatever
    its own request would have answered. *)
Theorem failed_request_stops_refresh (st st1 : t * nat) pre a post :
  assets st.1 = pre ++ a :: post →
  try_each (fetch_asset ticker_history now) pre st = Done st1 →
  ticker_history st1.2 a "1d" "5m" = None ∨
  ticker_history st1.2 a "14d" "1d" = None →
  fetch_market_data ticker_history now st = (st1.1, S st1.2) ∧
  st1.2 = (st.2 + length pre)%nat ∧
  (∀ b, b ∉ pre →
        market_data (fetch_market_data ticker_history now st).1 !! b
        = market_data st.1 !! b).
Proof.
  intros Has Hpre Hfail.
  assert (fetch_asset ticker_history now a st1 = Raised (st1.1, S st1.2))
    as Ha.
  { unfold fetch_asset. destruct Hfail as [->| H]; [done|]. rewrite H.
    by destruct (ticker_history st1.2 a "1d" "5m"). }
  assert (fetch_market_data ticker_history now st = (st1.1, S st1.2)) as Hst.
  { unfold fetch_market_data. rewrite Has.
    by rewrite (try_each_app_raised _ pre post a st st1 _ Hpre Ha). }
  split; [done|]. split; [by apply fetch_assets_tick|].
  intros b Hb. rewrite Hst. simpl.
  pose proof (fetch_assets_other pre st b Hb) as H. by rewrite Hpre in H.
Qed.

Lemma fetch_asset_answers a st :
  answers ticker_history st.2 a →
  ∃ st' d, fetch_asset ticker_history now a st = Done st' ∧
           market_data st'.1 !! a = Some d ∧
           refreshed ticker_history now st.2 a d.
Proof.
  intros (intraday & daily & latest & v & Hi & Hd & Hne & Hl & Hv).
  unfold fetch_asset. rewrite Hi, Hd, Hl.
  destruct daily as [|b daily]; [done|]. rewrite Hv.
  eexists _, _. split; [done|]. simpl. rewrite lookup_insert_eq.
  split; [done|]. exists st.2, intraday, (b :: daily).
  split; [done|]. split; [done|]. split; [done|]. split; [|done].
  split; [done|]. split; [done|]. split; [done|]. by exists latest.
Qed.

Lemma fetch_assets_answers l st :
  (∀ tick a, a ∈ l → (st.2 <= tick)%nat →
             answers ticker_history tick a) →
  ∀ a, a ∈ l →
       ∃ d, market_data
              (state_of (try_each (fetch_asset ticker_history now) l st)).1
              !! a = Some d ∧ refreshed ticker_history now st.2 a d.
Proof.
  revert st. induction l as [|x l IH]; intros st Hall a Ha.
  { by apply elem_of_nil in Ha. }
  destruct (fetch_asset_answers x st) as (st' & d & Hx & Hd & Hr).
  { apply Hall; [by left|done]. }
  pose proof (fetch_asset_tick _ _ _ Hx) as Htick.
  simpl. rewrite Hx.
  destruct (decide (a ∈ l)) as [Hin|Hnin].
  - assert (∀ tick b, b ∈ l → (st'.2 <= tick)%nat →
                      answers ticker_history tick b) as Hall'.
    { intros tick b Hb Ht. apply Hall; [by right|lia]. }
    destruct (IH st' Hall' a Hin) as [d' [Hd' Hr']].
    exists d'. split; [done|].
    destruct Hr' as (tick & i & dl & Ht & Hrest). exists tick, i, dl.
    split; [lia|done].
  - apply elem_of_cons in Ha as [->|Ha]; [|done].
    exists d. rewrite (fetch_assets_other l st' x Hnin). split; [done|].
    destruct Hr as (tick & i & dl & Ht & Hrest). by exists tick, i, dl.
Qed.

(** X25.  When every request of the fetch answers two frames with rows
    and the last intraday row has a volume, every asset of the list ends
    with an entry written by this fetch. *)
Theorem every_asset_refreshed (st : t * nat) :
  (∀ tick a, a ∈ assets st.1 → (st.2 <= tick)%nat →
             answers ticker_history tick a) →
  ∀ a, a ∈ assets st.1 →
       ∃ d, market_data (fetch_market_data ticker_history now st).1 !! a
            = Some d ∧ refreshed ticker_history now st.2 a d.
Proof. intros Hall a Ha. by apply fetch_assets_answers. Qed.

Lemma try_each_counted {A S} (m : S → nat) (w : nat)
    (body : A → S → outcome S) (l : list A) (s : S) :
  (∀ x s, x ∈ l → (m (state_of (body x s)) <= m s + w)%nat) →
  (m (state_of (try_each body l s)) <= m s + w * length l)%nat.
Proof.
  revert s. induction l as [|x l IH]; intros s Hstep; simpl; [lia|].
  pose proof (Hstep x s ltac:(by left)) as Hx.
  destruct (body x s) as [s'|s']; simpl in *; [|lia].
  assert (m (state_of (try_each body l s')) <= m s' + w * length l)%nat.
  { apply IH. intros y s'' Hy. apply Hstep. by right. }
  lia.
Qed.

(** One entry adds at most one item, one feed at most five. *)
Lemma store_entry_size e st :
  (size (news_data (state_of (store_entry now e st)).1)
   <= size (news_data st.1) + 1)%nat.
Proof.
  unfold store_entry. destruct (title e); simpl; [|lia].
  destruct (summary e); simpl; [|lia].
  rewrite map_size_insert. destruct (news_data st.1 !! _); simpl; lia.
Qed.

Lemma fetch_feed_size a st :
  (size (news_data (state_of (fetch_feed parse now a st)).1)
   <= size (news_data st.1) + 5)%nat.
Proof.
  unfold fetch_feed.
  destruct (parse st.2 (feed_url a)) as [feed|]; simpl; [|lia].
  pose proof (try_each_counted (λ s, size (news_data s.1)) 1
                (store_entry now) (take 5 feed) (st.1, S st.2)
                (λ e s _, store_entry_size e s)) as H.
  simpl in H. pose proof (firstn_le_length 5 feed). lia.
Qed.

Lemma store_entry_fields e st :
  assets (state_of (store_entry now e st)).1 = assets st.1 ∧
  market_data (state_of (store_entry now e st)).1 = market_data st.1.
Proof.
  unfold store_entry. destruct (title e); [|done]. by destruct (summary e).
Qed.

Lemma fetch_feed_fields a st :
  assets (state_of (fetch_feed parse now a st)).1 = assets st.1 ∧
  market_data (state_of (fetch_feed parse now a st)).1 = market_data st.1.
Proof.
  unfold fetch_feed. destruct (parse st.2 (feed_url a)) as [feed|]; [|done].
  apply (try_each_invariant
           (λ s, assets s.1 = assets st.1 ∧
                 market_data s.1 = market_data st.1));
    [done|].
  intros e s _ [H1 H2]. destruct (store_entry_fields e s) as [-> ->]. done.
Qed.

Lemma fetch_feed_reported l a st :
  a ∈ l →
  (∀ h info, news_data st.1 !! h = Some info → reported parse l h info) →
  ∀ h info, news_data (state_of (fetch_feed parse now a st)).1 !! h
            = Some info →
            reported parse l h info.
Proof.
  intros Ha Hst. unfold fetch_feed.
  destruct (parse st.2 (feed_url a)) as [feed|] eqn:Ep; [|done].
  apply (try_each_invariant
           (λ s, ∀ h info, news_data s.1 !! h = Some info →
                           reported parse l h info)); [done|].
  intros e s He Hs h info. unfold store_entry.
  destruct (title e) as [headline|] eqn:Et; [|by apply Hs].
  destruct (summary e) as [text|] eqn:Es; [|by apply Hs]. simpl.
  intros [[<- <-]|[_ H]]%lookup_insert_Some; [|by apply Hs].
  split; [done|]. exists a, st.2, feed, e. simpl.
  repeat split; try done. by intros p ->.
Qed.

(** X26.  [fetch_news_data] replaces the news: whatever was stored
    before, every item found afterwards comes from one of the first five
    entries of a feed answered during this fetch for an asset of the list,
    so there are at most five items per asset, and when no feed answers
    the news end empty instead of keeping the old items.  The asset list
    and the market data are not touched. *)
Theorem news_replaced_by_fetch (st : t * nat) :
  let st' := fetch_news_data parse now st in
  assets st'.1 = assets st.1 ∧
  market_data st'.1 = market_data st.1 ∧
  (∀ h info, news_data st'.1 !! h = Some info →
             reported parse (assets st.1) h info) ∧
  (size (news_data st'.1) <= 5 * length (assets st.1))%nat ∧
  ((∀ a tick, a ∈ assets st.1 → parse tick (feed_url a) = None) →
   news_data st'.1 = ∅).
Proof.
  intros st'. subst st'. unfold fetch_news_data.
  set (cleared := ({| assets := assets st.1; market_data := market_data st.1;
                      news_data := ∅;
                      last_market_fetch := last_market_fetch st.1 |}, st.2)).
  assert (∀ h info,
            news_data (state_of (try_each (fetch_feed parse now)
                                   (assets st.1) cleared)).1 !! h = Some info →
            reported parse (assets st.1) h info) as Hrep.
  { apply (try_each_invariant
             (λ s, ∀ h info, news_data s.1 !! h = Some info →
                             reported parse (assets st.1) h info)).
    - intros h info. simpl. by rewrite lookup_empty.
    - intros a s Ha Hs. by apply fetch_feed_reported. }
  split; [|split; [|split; [done|split]]].
  - apply (try_each_invariant (λ s, assets s.1 = assets st.1)); [done|].
    intros a s _ <-. apply fetch_feed_fields.
  - apply (try_each_invariant (λ s, market_data s.1 = market_data st.1));
      [done|].
    intros a s _ <-. apply fetch_feed_fields.
  - pose proof (try_each_counted (λ s, size (news_data s.1)) 5
                  (fetch_feed parse now) (assets st.1) cleared
                  (λ a s _, fetch_feed_size a s)) as H.
    simpl in H. rewrite map_size_empty in H. lia.
  - intros Hdown. apply map_empty. intros h.
    destruct (news_data _ !! h) as [info|] eqn:E; [|done].
    destruct (Hrep h info E) as (_ & a & tick & feed & e & Ha & Hp & _).
    rewrite (Hdown a tick Ha) in Hp. done.
Qed.

(** X27.  From a new object, the detector labels only assets of the list,
    each from the daily closes of one answer of the provider.  An asset
    whose requests always answer an empty frame gets no entry and no
    label: the dashboard shows a gray "No signal" for it and
    [process_alerts] never alerts for it. *)
Theorem asset_without_data_has_no_signal (l : list string) (tick0 : nat) a :
  let self := (fetch_market_data ticker_history now (init l, tick0)).1 in
  let opportunities := detect_opportunities (market_data self) in
  (∀ label, opportunities !! a = Some label →
            a ∈ l ∧ ∃ d, refreshed ticker_history now tick0 a d ∧
                         label = signal_of d) ∧
  ((∀ tick intraday daily,
      ticker_history tick a "1d" "5m" = Some intraday →
      ticker_history tick a "14d" "1d" = Some daily →
      intraday = [] ∨ daily = []) →
   opportunities !! a = None ∧
   signal_card opportunities a = ("gray", "No signal") ∧
   ∀ fetch_company_profile asset_sentiments,
     ¬ alerted fetch_company_profile opportunities asset_sentiments a).
Proof.
  intros self opportunities.
  destruct (fetch_assets_kept l (init l, tick0)) as (_ & _ & _ & _ & Hnew).
  assert (∀ d, market_data self !! a = Some d →
               a ∈ l ∧ refreshed ticker_history now tick0 a d) as Hd.
  { intros d Hd. destruct (Hnew a d Hd) as [H|H]; [|done].
    simpl in H. by rewrite lookup_empty in H. }
  split.
  - intros label. subst opportunities. rewrite lookup_detect_opportunities.
    intros [d [E ->]]%fmap_Some. destruct (Hd d E) as [Ha Hr].
    split; [done|]. by exists d.
  - intros Hempty.
    assert (opportunities !! a = None) as Hnone.
    { subst opportunities. rewrite lookup_detect_opportunities.
      destruct (market_data self !! a) as [d|] eqn:E; [|done].
      destruct (Hd d eq_refl) as [_ (tick & i & dl & _ & Hi & Hdl & Hw & _)].
      destruct Hw as (Hne & _ & _ & latest & Hlast & _).
      destruct (Hempty tick i dl Hi Hdl) as [->| ->]; done. }
    split; [done|]. split.
    + unfold signal_card. rewrite Hnone. reflexivity.
    + intros f sents [e [He Ha]]. apply elem_of_process_alerts in He.
      destruct He as (a' & s & Hs & He).
      destruct (alert_for_Some _ _ _ _ _ He) as [Heq _].
      rewrite Ha in Heq. subst a'. congruence.
Qed.

End IngestionMore.

Lemma market_data_kept_or_refreshed_witness :
  is_Some (DataIngestion.market_data
             (DataIngestion.fetch_market_data demo_history demo_clock
                (demo_ingestion, 0%nat)).1 !! "CCC").
Proof.
  destruct (market_data_kept_or_refreshed demo_history demo_clock
              (demo_ingestion, 0%nat)) as (_ & _ & H & _).
  apply H. vm_compute. eauto.
Defined.

Lemma failed_request_stops_refresh_witness :
  DataIngestion.market_data
    (DataIngestion.fetch_market_data demo_history demo_clock
       (demo_ingestion, 0%nat)).1 !! "CCC"
  = Some (with_history rising_closes).
Proof.
  destruct (failed_request_stops_refresh demo_history demo_clock
              (demo_ingestion, 0%nat)
              (state_of (try_each
                           (DataIngestion.fetch_asset demo_history demo_clock)
                           ["AAA"] (demo_ingestion, 0%nat)))
              ["AAA"] "BBB" ["CCC"]) as (_ & _ & H).
  - reflexivity.
  - reflexivity.
  - left. reflexivity.
  - rewrite H; [reflexivity|].
    intros Hin. apply list_elem_of_In in Hin. simpl in Hin.
    intuition discriminate.
Defined.

Lemma every_asset_refreshed_witness :
  ∃ d, DataIngestion.market_data
         (DataIngestion.fetch_market_data demo_history demo_clock
            (DataIngestion.init ["AAA"], 0%nat)).1 !! "AAA" = Some d ∧
       DataIngestion.refreshed demo_history demo_clock 0 "AAA" d.
Proof.
  apply (every_asset_refreshed demo_history demo_clock
           (DataIngestion.init ["AAA"], 0%nat)).
  - intros tick a Ha _. apply list_elem_of_In in Ha. simpl in Ha.
    destruct Ha as [<-|[]].
    exists demo_bars, demo_bars,
      {| DataIngestion.Close := 11; DataIngestion.Volume := Some 700%Z |},
      700%Z.
    repeat split; try reflexivity. discriminate.
  - apply list_elem_of_In. simpl. tauto.
Defined.

Lemma news_replaced_by_fetch_witness :
  DataIngestion.news_data
    (DataIngestion.fetch_news_data demo_feed demo_clock
       (stale_ingestion, 0%nat)).1 = ∅.
Proof.
  apply (proj2 (proj2 (proj2 (proj2
           (news_replaced_by_fetch demo_feed demo_clock
              (stale_ingestion, 0%nat)))))).
  intros a tick Ha. apply list_elem_of_In in Ha. simpl in Ha.
  destruct Ha as [<-|[]]. reflexivity.
Defined.

Lemma asset_without_data_has_no_signal_witness :
  signal_card
    (detect_opportunities
       (DataIngestion.market_data
          (DataIngestion.fetch_market_data demo_history demo_clock
             (DataIngestion.init ["AAA"; "CCC"], 0%nat)).1)) "CCC"
  = ("gray", "No signal").
Proof.
  apply (proj2 (asset_without_data_has_no_signal demo_history demo_clock
                  ["AAA"; "CCC"] 0 "CCC")).
  intros tick intraday daily Hi _. left.
  assert (demo_history tick "CCC" "1d" "5m" = Some []) as E by reflexivity.
  congruence.
Defined.
